(** * terraform-provider-aws: tag helpers, provider configuration and
      retry predicates

    A shallow embedding of
      - [internal/conns/config.go] ([ConfigureProvider] and the retry
        handlers it installs on the service clients),
      - the generated tag helpers [internal/service/*/tags_gen.go]
        (shield, ecs, elbv2, wafv2, codeartifact),
      - [internal/service/ecs/services_data_source.go] ([listServices]).

    Go values are modelled as follows.  A [*string] is an [option string];
    an [error] is an [option err] ([None] is Go's [nil]); a Go [int] is a
    [Z]; a [map[string]V] is a [gmap string V]; a pointer to an SDK struct
    is the struct itself (the SDK never hands out nil elements).  AWS API
    calls are answered by an oracle that sees the history of the calls made
    so far, and every call is appended to that history together with the
    [context.Context] it was given. *)

From Stdlib Require Import ZArith String Ascii List.
From stdpp Require Import gmap strings list fin_maps.

Local Open Scope string_scope.
Local Open Scope Z_scope.

(** ** Go's [strings] package *)

Module strings.

(** [strings.HasPrefix(s, prefix)] *)
Fixpoint HasPrefix (s prefix : string) : bool :=
  match prefix, s with
  | EmptyString, _ => true
  | String _ _, EmptyString => false
  | String a prefix', String b s' => Ascii.eqb a b && HasPrefix s' prefix'
  end.

(** [strings.Contains(s, substr)] *)
Fixpoint Contains (s substr : string) : bool :=
  HasPrefix s substr ||
  match s with
  | EmptyString => false
  | String _ s' => Contains s' substr
  end.

End strings.

(** ** [context.Context]

    A context is the background context or is derived from a parent; a
    derived context is a different value from its parent. *)

Inductive Context : Type :=
| Background
| WithValue (parent : Context) (key val : string)
| WithCancel (parent : Context)
| WithTimeout (parent : Context) (nanoseconds : Z).

(** ** Shapes of the AWS SDK

    [aws.String], [aws.StringValue], [aws.StringSlice], the [Tag] struct
    every service package declares with the same two fields, and the inputs
    and outputs of the tagging operations. *)

Module aws.

(** [aws.String(s)] *)
Definition String (s : string) : option string := Some s.

(** [aws.StringValue(p)]: the empty string for a nil pointer. *)
Definition StringValue (p : option string) : string :=
  match p with
  | Some s => s
  | None => ""
  end.

(** [aws.StringSlice(ss)] *)
Definition StringSlice (ss : list string) : list (option string) :=
  map String ss.

End aws.

(** [shield.Tag], [ecs.Tag], [elbv2.Tag], [wafv2.Tag], [codeartifact.Tag] *)
Record Tag : Type := mkTag {
  Key : option string;
  Value : option string;
}.

(** [ListTagsForResourceInput] / [ListTagsForResourceOutput] of shield, ecs
    and codeartifact (the field is spelled [ResourceARN] in shield). *)
Module ListTagsForResourceInput.
Record t : Type := mk { ResourceArn : option string }.
End ListTagsForResourceInput.

Module ListTagsForResourceOutput.
Record t : Type := mk { Tags : list Tag }.
End ListTagsForResourceOutput.

Module UntagResourceInput.
Record t : Type := mk { ResourceArn : option string; TagKeys : list (option string) }.
End UntagResourceInput.

Module TagResourceInput.
Record t : Type := mk { ResourceArn : option string; Tags : list Tag }.
End TagResourceInput.

(** The elbv2 operations take a list of ARNs and answer with one
    [TagDescription] per resource. *)
Module DescribeTagsInput.
Record t : Type := mk { ResourceArns : list (option string) }.
End DescribeTagsInput.

Module TagDescription.
Record t : Type := mk { ResourceArn : option string; Tags : list Tag }.
End TagDescription.

Module DescribeTagsOutput.
Record t : Type := mk { TagDescriptions : list TagDescription.t }.
End DescribeTagsOutput.

Module RemoveTagsInput.
Record t : Type := mk { ResourceArns : list (option string); TagKeys : list (option string) }.
End RemoveTagsInput.

Module AddTagsInput.
Record t : Type := mk { ResourceArns : list (option string); Tags : list Tag }.
End AddTagsInput.

(** ** Errors *)

(** The non-nil error values this code creates or inspects. *)
#[warnings="-register-all"]
Inductive err : Type :=
| awserr_New (Code Message : string)
    (* an [awserr.Error] returned by the AWS SDK *)
| errors_New (text : string)
    (* any other error *)
| fmt_Errorf (prefix : string) (wrapped : err)
    (* [fmt.Errorf(prefix + ": %w", wrapped)] *)
| NotFoundError (LastError : option err) (LastRequest : ListTagsForResourceInput.t).
    (* [&resource.NotFoundError{LastError: err, LastRequest: input}] *)

(** Go's [error]: [None] is [nil]. *)
Definition error : Type := option err.

(** [errors.Unwrap] *)
Definition Unwrap (e : err) : error :=
  match e with
  | fmt_Errorf _ wrapped => Some wrapped
  | _ => None
  end.

(** [errors.As(err, &awsErr)] for [awsErr awserr.Error]: the first
    [awserr.Error] on the chain of errors wrapped by [fmt.Errorf], as its
    code and message. *)
Fixpoint As_awserr (e : err) : option (string * string) :=
  match e with
  | awserr_New code message => Some (code, message)
  | fmt_Errorf _ wrapped => As_awserr wrapped
  | errors_New _ => None
  | NotFoundError _ _ => None
  end.

Module tfawserr.

(** [tfawserr.ErrCodeEquals(err, code)] *)
Definition ErrCodeEquals (e : error) (code : string) : bool :=
  match e with
  | None => false
  | Some e' =>
      match As_awserr e' with
      | Some (c, _) => String.eqb c code
      | None => false
      end
  end.

(** [tfawserr.ErrMessageContains(err, code, message)] *)
Definition ErrMessageContains (e : error) (code message : string) : bool :=
  match e with
  | None => false
  | Some e' =>
      match As_awserr e' with
      | Some (c, m) => String.eqb c code && strings.Contains m message
      | None => false
      end
  end.

End tfawserr.

(** ** [request.Request] and the retry handlers of [config.go] *)

Module request.

(** The fields of [request.Request] the handlers read and write:
    [r.Operation.Name], [r.Error], [r.RetryCount], [r.Retryable]. *)
Record Request : Type := mkRequest {
  Operation_Name : string;
  Error : error;
  RetryCount : Z;
  Retryable : option bool;
}.

(** [r.Retryable = aws.Bool(b)] *)
Definition set_Retryable (b : bool) (r : Request) : Request :=
  {| Operation_Name := Operation_Name r;
     Error := Error r;
     RetryCount := RetryCount r;
     Retryable := Some b |}.

(** A handler of a [request.HandlerList]. *)
Definition Handler : Type := Request → Request.

(** [Handlers.Retry.PushBack(f)] *)
Definition PushBack (f : Handler) (l : list Handler) : list Handler :=
  (l ++ [f])%list.

(** [HandlerList.Run]: the handlers run in list order. *)
Definition Run (l : list Handler) (r : Request) : Request :=
  fold_left (λ r' f, f r') l r.

End request.
Import request.

(** Error codes of the AWS SDK. *)
Module configservice.
Definition ErrCodeOrganizationAccessDeniedException : string :=
  "OrganizationAccessDeniedException".
Definition ErrCodeResourceInUseException : string :=
  "ResourceInUseException".
End configservice.

Module wafv2_codes.
Definition ErrCodeWAFInternalErrorException : string :=
  "WAFInternalErrorException".
Definition ErrCodeWAFServiceLinkedRoleErrorException : string :=
  "WAFServiceLinkedRoleErrorException".
Definition ErrCodeWAFTagOperationException : string :=
  "WAFTagOperationException".
Definition ErrCodeWAFTagOperationInternalErrorException : string :=
  "WAFTagOperationInternalErrorException".
End wafv2_codes.

(** A [case "a", "b", ...:] of a [switch] on a string. *)
Fixpoint case_of (s : string) (labels : list string) : bool :=
  match labels with
  | [] => false
  | l :: labels' => String.eqb s l || case_of s labels'
  end.

(** ** [diag.Diagnostics] *)

(** [err.Error()] *)
Fixpoint Error_text (e : err) : string :=
  match e with
  | awserr_New code message => (code ++ ": " ++ message)%string
  | errors_New text => text
  | fmt_Errorf prefix wrapped => (prefix ++ ": " ++ Error_text wrapped)%string
  | NotFoundError _ _ => "couldn't find resource"
  end.

Module diag.

Inductive Severity : Type := Error | Warning.

Record Diagnostic : Type := mkDiagnostic {
  Severity_of : Severity;
  Summary : string;
}.

Definition Diagnostics : Type := list Diagnostic.

(** [diag.Errorf(format + "%s", arg)] *)
Definition Errorf (format arg : string) : Diagnostics :=
  [ {| Severity_of := Error; Summary := (format ++ arg)%string |} ].

(** [diag.FromErr(err)] for a non-nil [err] *)
Definition FromErr (e : err) : Diagnostics :=
  [ {| Severity_of := Error; Summary := Error_text e |} ].

(** [Diagnostics.HasError] *)
Definition HasError (d : Diagnostics) : bool :=
  existsb (λ x, match Severity_of x with Error => true | Warning => false end) d.

End diag.

Module conns.

(** The fields of [Config] read by the part of [ConfigureProvider] that
    is embedded here.  The remaining fields only feed [awsbase.Config]. *)
Record Config : Type := mkConfig {
  AllowedAccountIds : list string;
  ForbiddenAccountIds : list string;
  Region : string;
  SkipRegionValidation : bool;
  TerraformVersion : string;
}.

(** [c.Region = region] *)
Definition set_Region (region : string) (c : Config) : Config :=
  {| AllowedAccountIds := AllowedAccountIds c;
     ForbiddenAccountIds := ForbiddenAccountIds c;
     Region := region;
     SkipRegionValidation := SkipRegionValidation c;
     TerraformVersion := TerraformVersion c |}.

(** The fields of [AWSClient] written by [ConfigureProvider] that the
    properties below read, and the [Handlers.Retry] lists of the three
    service clients whose retry closures are embedded. *)
Record AWSClient : Type := mkAWSClient {
  AccountID : string;
  DNSSuffix : string;
  Partition : string;
  client_Region : string;
  client_TerraformVersion : string;
  configserviceConn_Handlers_Retry : list Handler;
  ec2Conn_Handlers_Retry : list Handler;
  wafv2Conn_Handlers_Retry : list Handler;
}.

(** What the libraries called by [ConfigureProvider] answer:
    [awsbase.GetAwsConfig] (the region of the resulting configuration and
    an error), [awsbase.ValidateRegion], [awsbasev1.GetSession],
    [awsbase.GetAwsAccountIDAndPartition],
    [endpoints.PartitionForRegion] (the DNS suffix of the partition, if
    any), and the [Retry] handlers the clients made by the generated
    [sdkv1Conns] start with. *)
Record Libraries : Type := mkLibraries {
  GetAwsConfig : Config → string * error;
  ValidateRegion : string → error;
  GetSession : Config → error;
  GetAwsAccountIDAndPartition : Config → string * string * error;
  PartitionForRegion : string → option string;
  sdkv1Conns_Retry : list Handler;
}.

(** The closure pushed on [client.configserviceConn.Handlers.Retry]
    (config.go, lines 281-319).  [err] is the variable of the enclosing
    [ConfigureProvider] that the closure captures. *)
Definition configserviceConn_Retry (err : error) : Handler := λ r,
  if case_of (Operation_Name r)
       ["DeleteOrganizationConfigRule"; "DescribeOrganizationConfigRules";
        "DescribeOrganizationConfigRuleStatuses"; "PutOrganizationConfigRule"]
  then
    if negb (tfawserr.ErrMessageContains (Error r)
               configservice.ErrCodeOrganizationAccessDeniedException
               "This action can be only made by AWS Organization's master account.")
    then r
    else if RetryCount r <? 9
    then set_Retryable true r
    else set_Retryable false r
  else if case_of (Operation_Name r)
       ["DeleteOrganizationConformancePack"; "DescribeOrganizationConformancePacks";
        "DescribeOrganizationConformancePackStatuses"; "PutOrganizationConformancePack"]
  then
    if negb (tfawserr.ErrCodeEquals (Error r)
               configservice.ErrCodeOrganizationAccessDeniedException)
    then
      if String.eqb (Operation_Name r) "DeleteOrganizationConformancePack"
         && tfawserr.ErrCodeEquals err configservice.ErrCodeResourceInUseException
      then set_Retryable true r
      else r
    else if RetryCount r <? 9
    then set_Retryable true r
    else set_Retryable false r
  else r.

(** The closure pushed on [client.ec2Conn.Handlers.Retry] (lines 337-370);
    it binds its own [err := r.Error]. *)
Definition ec2Conn_Retry : Handler := λ r,
  let err := Error r in
  let retry_if (code message : string) :=
    if tfawserr.ErrMessageContains err code message
    then set_Retryable true r else r in
  if case_of (Operation_Name r) ["AttachVpnGateway"; "DetachVpnGateway"] then
    retry_if "InvalidParameterValue"
      "This call cannot be completed because there are pending VPNs or Virtual Interfaces"
  else if case_of (Operation_Name r) ["CreateClientVpnEndpoint"] then
    retry_if "OperationNotPermitted"
      "Endpoint cannot be created while another endpoint is being created"
  else if case_of (Operation_Name r) ["CreateClientVpnRoute"; "DeleteClientVpnRoute"] then
    retry_if "ConcurrentMutationLimitExceeded"
      "Cannot initiate another change for this endpoint at this time"
  else if case_of (Operation_Name r) ["CreateVpnConnection"] then
    retry_if "VpnConnectionLimitExceeded"
      "maximum number of mutating objects has been reached"
  else if case_of (Operation_Name r) ["CreateVpnGateway"] then
    retry_if "VpnGatewayLimitExceeded"
      "maximum number of mutating objects has been reached"
  else if case_of (Operation_Name r) ["RunInstances"] then
    if tfawserr.ErrCodeEquals err "InsufficientInstanceCapacity"
    then set_Retryable false r else r
  else r.

(** The closure pushed on [client.wafv2Conn.Handlers.Retry]
    (lines 469-488).  [err] is the captured variable of
    [ConfigureProvider]. *)
Definition wafv2Conn_Retry (err : error) : Handler := λ r,
  let r1 :=
    if tfawserr.ErrMessageContains (Error r)
         wafv2_codes.ErrCodeWAFInternalErrorException "Retry your request"
    then set_Retryable true r else r in
  let r2 :=
    if tfawserr.ErrMessageContains (Error r1)
         wafv2_codes.ErrCodeWAFServiceLinkedRoleErrorException "Retry"
    then set_Retryable true r1 else r1 in
  if String.eqb (Operation_Name r2) "CreateIPSet"
     || String.eqb (Operation_Name r2) "CreateRegexPatternSet"
     || String.eqb (Operation_Name r2) "CreateRuleGroup"
     || String.eqb (Operation_Name r2) "CreateWebACL"
  then
    let r3 :=
      if tfawserr.ErrMessageContains (Error r2)
           wafv2_codes.ErrCodeWAFTagOperationException "Retry your request"
      then set_Retryable true r2 else r2 in
    if tfawserr.ErrMessageContains err
         wafv2_codes.ErrCodeWAFTagOperationInternalErrorException "Retry your request"
    then set_Retryable true r3 else r3
  else r2.

(** [len(ids) > 0] *)
Definition nonempty (ids : list string) : bool :=
  0 <? Z.of_nat (length ids).

(** [for _, id := range ids { if accountID == id { ... } }]: whether the
    body's condition holds for some element. *)
Fixpoint range_matches (accountID : string) (ids : list string) : bool :=
  match ids with
  | [] => false
  | id :: ids' => if String.eqb accountID id then true else range_matches accountID ids'
  end.

(** [(c *Config) ConfigureProvider(ctx, client)] (lines 76-491).  The
    first component is the returned [*AWSClient] ([None] is [nil]).

    [awsbaseConfig] is assembled from [c] before any call (lines 77-125), so
    the library calls are answered from [c] as it came in.  Left out: the
    logging, the configuration of the service packages, and the retry
    closures of the other service clients, none of which writes the fields
    kept here. *)
Definition ConfigureProvider (lib : Libraries) (c : Config) (client : AWSClient)
  : option AWSClient * diag.Diagnostics :=
  let '(cfg_Region, err) := GetAwsConfig lib c in
  match err with
  | Some e => (None, diag.Errorf "configuring Terraform AWS Provider: " (Error_text e))
  | None =>
  match (if negb (SkipRegionValidation c) then ValidateRegion lib cfg_Region else None) with
  | Some e => (None, diag.FromErr e)
  | None =>
  let c' := set_Region cfg_Region c in
  let err := GetSession lib c in
  match err with
  | Some e => (None, diag.Errorf "creating AWS SDK v1 session: " (Error_text e))
  | None =>
  let '(accountID, partition, err) := GetAwsAccountIDAndPartition lib c in
  match err with
  | Some e => (None, diag.Errorf "retrieving AWS account details: " (Error_text e))
  | None =>
  if nonempty (ForbiddenAccountIds c') && range_matches accountID (AllowedAccountIds c')
  then (None, diag.Errorf "AWS account ID not allowed: " accountID)
  else
  if nonempty (AllowedAccountIds c') && negb (range_matches accountID (AllowedAccountIds c'))
  then (None, diag.Errorf "AWS account ID not allowed: " accountID)
  else
  let DNSSuffix :=
    match PartitionForRegion lib (Region c') with
    | Some suffix => suffix
    | None => "amazonaws.com"
    end in
  (Some {| AccountID := accountID;
           DNSSuffix := DNSSuffix;
           Partition := partition;
           client_Region := Region c';
           client_TerraformVersion := TerraformVersion c';
           configserviceConn_Handlers_Retry :=
             PushBack (configserviceConn_Retry err) (sdkv1Conns_Retry lib);
           ec2Conn_Handlers_Retry :=
             PushBack ec2Conn_Retry (sdkv1Conns_Retry lib);
           wafv2Conn_Handlers_Retry :=
             PushBack (wafv2Conn_Retry err) (sdkv1Conns_Retry lib) |},
   [])
  end end end end.

End conns.

(** ** [internal/tags]: key-value tag sets *)

Module tftags.

(** Modelled from the spec: [tftags.KeyValueTags] of [internal/tags], which
    is not among the sources.  The spec describes a tag set as an
    order-irrelevant mapping from string key to string value. *)
Abbreviation KeyValueTags := (gmap string string).

(** The values of type [any] that the tag helpers hand to [tftags.New]:
    [nil], a [map[string]string], a [map[string]*string], or a
    [KeyValueTags]. *)
Inductive any : Type :=
| any_nil
| any_map_string (m : gmap string string)
| any_map_string_ptr (m : gmap string (option string))
| any_KeyValueTags (tags : KeyValueTags).

(** Modelled from the spec: [tftags.New(ctx, i)], absent from the sources,
    makes the tag set of a value: [nil] gives the empty tag set, and the
    value behind a nil pointer reads as the empty string, since tag values
    are strings. *)
Definition New (ctx : Context) (i : any) : KeyValueTags :=
  match i with
  | any_nil => ∅
  | any_map_string m => m
  | any_map_string_ptr m => aws.StringValue <$> m
  | any_KeyValueTags tags => tags
  end.

(** Modelled from the spec: [KeyValueTags.Map], absent from the sources,
    gives the mapping from keys to values. *)
Definition Map (tags : KeyValueTags) : gmap string string := tags.

(** Modelled from the spec: [KeyValueTags.Keys], absent from the sources,
    lists the keys of the mapping. *)
Definition Keys (tags : KeyValueTags) : list string :=
  (map_to_list tags).*1.

(** [len(tags)] *)
Definition len (tags : KeyValueTags) : Z := Z.of_nat (size tags).

(** Modelled from the spec: [KeyValueTags.Removed], absent from the
    sources: the set-difference of removed tags, those of the old tag set
    whose key the new tag set does not have. *)
Definition Removed (tags newTags : KeyValueTags) : KeyValueTags :=
  filter (λ kv, newTags !! kv.1 = None) tags.

(** Modelled from the spec: [KeyValueTags.Updated], absent from the
    sources: the tags of the new tag set that are added or changed, that
    is, all but the unchanged ones. *)
Definition Updated (tags newTags : KeyValueTags) : KeyValueTags :=
  filter (λ kv, tags !! kv.1 ≠ Some kv.2) newTags.

End tftags.
Import tftags.

(** ** AWS API calls

    A call made through a service client is recorded with the context and
    the input it was given. *)

Inductive Call : Type :=
| ListTagsForResource (ctx : Context) (input : ListTagsForResourceInput.t)
| UntagResource (ctx : Context) (input : UntagResourceInput.t)
| TagResource (ctx : Context) (input : TagResourceInput.t)
| DescribeTags (ctx : Context) (input : DescribeTagsInput.t)
| RemoveTags (ctx : Context) (input : RemoveTagsInput.t)
| AddTags (ctx : Context) (input : AddTagsInput.t)
| ListServices_NextPage (ctx : Context).

Definition Call_ctx (c : Call) : Context :=
  match c with
  | ListTagsForResource ctx _ | UntagResource ctx _ | TagResource ctx _
  | DescribeTags ctx _ | RemoveTags ctx _ | AddTags ctx _
  | ListServices_NextPage ctx => ctx
  end.

(** The calls made so far, oldest first. *)
Definition History : Type := list Call.

(** A computation that makes API calls: it extends the history. *)
Definition M (A : Type) : Type := History → A * History.

#[global] Instance M_ret : MRet M := λ A a h, (a, h).
#[global] Instance M_bind : MBind M := λ A B f m h, let '(a, h') := m h in f a h'.

(** The calls a computation makes when started after history [h]. *)
Definition calls {A} (m : M A) (h : History) : list Call :=
  drop (length h) (m h).2.

(** The tagging methods of [shieldiface.ShieldAPI], [ecsiface.ECSAPI],
    [wafv2iface.WAFV2API] and [codeartifactiface.CodeArtifactAPI]: what the
    service answers to a call, given the calls made before.  The outputs of
    the untag and tag operations are discarded by the helpers. *)
Record TagAPI : Type := mkTagAPI {
  ListTagsForResource_reply :
    History → Context → ListTagsForResourceInput.t → ListTagsForResourceOutput.t * error;
  UntagResource_reply : History → Context → UntagResourceInput.t → error;
  TagResource_reply : History → Context → TagResourceInput.t → error;
}.

(** [conn.ListTagsForResourceWithContext(ctx, input)] *)
Definition ListTagsForResourceWithContext (conn : TagAPI) (ctx : Context)
    (input : ListTagsForResourceInput.t) : M (ListTagsForResourceOutput.t * error) :=
  λ h, (ListTagsForResource_reply conn h ctx input, (h ++ [ListTagsForResource ctx input])%list).

(** [conn.UntagResourceWithContext(ctx, input)] *)
Definition UntagResourceWithContext (conn : TagAPI) (ctx : Context)
    (input : UntagResourceInput.t) : M error :=
  λ h, (UntagResource_reply conn h ctx input, (h ++ [UntagResource ctx input])%list).

(** [conn.TagResourceWithContext(ctx, input)] *)
Definition TagResourceWithContext (conn : TagAPI) (ctx : Context)
    (input : TagResourceInput.t) : M error :=
  λ h, (TagResource_reply conn h ctx input, (h ++ [TagResource ctx input])%list).

(** The tagging methods of [elbv2iface.ELBV2API]. *)
Record ELBV2API : Type := mkELBV2API {
  DescribeTags_reply :
    History → Context → DescribeTagsInput.t → DescribeTagsOutput.t * error;
  RemoveTags_reply : History → Context → RemoveTagsInput.t → error;
  AddTags_reply : History → Context → AddTagsInput.t → error;
}.

(** [conn.DescribeTagsWithContext(ctx, input)] *)
Definition DescribeTagsWithContext (conn : ELBV2API) (ctx : Context)
    (input : DescribeTagsInput.t) : M (DescribeTagsOutput.t * error) :=
  λ h, (DescribeTags_reply conn h ctx input, (h ++ [DescribeTags ctx input])%list).

(** [conn.RemoveTagsWithContext(ctx, input)] *)
Definition RemoveTagsWithContext (conn : ELBV2API) (ctx : Context)
    (input : RemoveTagsInput.t) : M error :=
  λ h, (RemoveTags_reply conn h ctx input, (h ++ [RemoveTags ctx input])%list).

(** [conn.AddTagsWithContext(ctx, input)] *)
Definition AddTagsWithContext (conn : ELBV2API) (ctx : Context)
    (input : AddTagsInput.t) : M error :=
  λ h, (AddTags_reply conn h ctx input, (h ++ [AddTags ctx input])%list).

(** ** The generated tag helpers

    [internal/generate/tags/main.go] writes one [tags_gen.go] per service
    from a single template; for shield, codeartifact, ecs and wafv2 the
    functions [Tags], [KeyValueTags] and [UpdateTags] differ in the name of
    the service package only, and [ListTags] of shield and codeartifact
    likewise. *)

(** A function either returns or panics at run time. *)
Inductive outcome (A : Type) : Type :=
| Returns (a : A)
| Panics.
Arguments Returns {A} a.
Arguments Panics {A}.

Module tags_gen.

(** [Tags(tags)] (tags_gen.go, lines 35-48): one [Tag] per entry of
    [tags.Map()].  Go ranges over a map in an unspecified order; this is the
    list in the order [map_to_list] enumerates the map, and the lists Go may
    produce are its permutations. *)
Definition Tags (tags : tftags.KeyValueTags) : list Tag :=
  (λ kv, {| Key := aws.String kv.1; Value := aws.String kv.2 |})
    <$> map_to_list (Map tags).

(** [KeyValueTags(ctx, tags)] (lines 51-59): the loop assigns
    [m[aws.StringValue(tag.Key)] = tag.Value] for each tag in order, so a
    later tag overwrites an earlier one with the same key. *)
Definition KeyValueTags (ctx : Context) (tags : list Tag) : tftags.KeyValueTags :=
  let m : gmap string (option string) :=
    fold_left (λ m tag, <[aws.StringValue (Key tag) := Value tag]> m) tags ∅ in
  New ctx (any_map_string_ptr m).

(** [ListTags(ctx, conn, identifier)] of shield and codeartifact
    (lines 18-30).  The returned map is [None] when it is Go's [nil]. *)
Definition ListTags (ctx : Context) (conn : TagAPI) (identifier : string)
    : M (option tftags.KeyValueTags * error) :=
  let input := ListTagsForResourceInput.mk (aws.String identifier) in
  '(output, err) ← ListTagsForResourceWithContext conn ctx input;
  match err with
  | Some e => mret (Some (New ctx any_nil), Some e)
  | None => mret (Some (KeyValueTags ctx (ListTagsForResourceOutput.Tags output)), None)
  end.

Section UpdateTags.

(** [KeyValueTags.IgnoreAWS] of [internal/tags] is not among the sources
    and the spec does not describe it; it only shapes the inputs of the
    calls. *)
Variable IgnoreAWS : tftags.KeyValueTags → tftags.KeyValueTags.

(** The second half of [UpdateTags] (lines 82-96): the tag call. *)
Definition UpdateTags_updated (ctx : Context) (conn : TagAPI) (identifier : string)
    (oldTags newTags : tftags.KeyValueTags) : M error :=
  let updatedTags := Updated oldTags newTags in
  if 0 <? len updatedTags then
    let input := TagResourceInput.mk (aws.String identifier) (Tags (IgnoreAWS updatedTags)) in
    err ← TagResourceWithContext conn ctx input;
    match err with
    | Some e => mret (Some (fmt_Errorf ("tagging resource (" ++ identifier ++ ")") e))
    | None => mret None
    end
  else mret None.

(** [UpdateTags(ctx, conn, identifier, oldTagsMap, newTagsMap)]
    (lines 65-96). *)
Definition UpdateTags (ctx : Context) (conn : TagAPI) (identifier : string)
    (oldTagsMap newTagsMap : any) : M error :=
  let oldTags := New ctx oldTagsMap in
  let newTags := New ctx newTagsMap in
  let removedTags := Removed oldTags newTags in
  if 0 <? len removedTags then
    let input := UntagResourceInput.mk (aws.String identifier)
                   (aws.StringSlice (Keys (IgnoreAWS removedTags))) in
    err ← UntagResourceWithContext conn ctx input;
    match err with
    | Some e => mret (Some (fmt_Errorf ("untagging resource (" ++ identifier ++ ")") e))
    | None => UpdateTags_updated ctx conn identifier oldTags newTags
    end
  else UpdateTags_updated ctx conn identifier oldTags newTags.

End UpdateTags.

End tags_gen.

Module shield.
Definition ListTags := tags_gen.ListTags.
Definition Tags := tags_gen.Tags.
Definition KeyValueTags := tags_gen.KeyValueTags.
Definition UpdateTags := tags_gen.UpdateTags.
End shield.

Module wafv2.
Definition Tags := tags_gen.Tags.
Definition KeyValueTags := tags_gen.KeyValueTags.
Definition UpdateTags := tags_gen.UpdateTags.
End wafv2.

Module elbv2.

Definition Tags := tags_gen.Tags.
Definition KeyValueTags := tags_gen.KeyValueTags.

(** [ListTags(ctx, conn, identifier)] (elbv2/tags_gen.go, lines 18-30).
    [output.TagDescriptions[0]] panics with an index out of range when the
    slice is empty. *)
Definition ListTags (ctx : Context) (conn : ELBV2API) (identifier : string)
    : M (outcome (option tftags.KeyValueTags * error)) :=
  let input := DescribeTagsInput.mk (aws.StringSlice [identifier]) in
  '(output, err) ← DescribeTagsWithContext conn ctx input;
  match err with
  | Some e => mret (Returns (Some (New ctx any_nil), Some e))
  | None =>
      match DescribeTagsOutput.TagDescriptions output with
      | [] => mret Panics
      | d :: _ => mret (Returns (Some (KeyValueTags ctx (TagDescription.Tags d)), None))
      end
  end.

Section UpdateTags.

Variable IgnoreAWS : tftags.KeyValueTags → tftags.KeyValueTags.

Definition UpdateTags_updated (ctx : Context) (conn : ELBV2API) (identifier : string)
    (oldTags newTags : tftags.KeyValueTags) : M error :=
  let updatedTags := Updated oldTags newTags in
  if 0 <? len updatedTags then
    let input := AddTagsInput.mk (aws.StringSlice [identifier]) (Tags (IgnoreAWS updatedTags)) in
    err ← AddTagsWithContext conn ctx input;
    match err with
    | Some e => mret (Some (fmt_Errorf ("tagging resource (" ++ identifier ++ ")") e))
    | None => mret None
    end
  else mret None.

(** [UpdateTags] (elbv2/tags_gen.go, lines 65-96). *)
Definition UpdateTags (ctx : Context) (conn : ELBV2API) (identifier : string)
    (oldTagsMap newTagsMap : any) : M error :=
  let oldTags := New ctx oldTagsMap in
  let newTags := New ctx newTagsMap in
  let removedTags := Removed oldTags newTags in
  if 0 <? len removedTags then
    let input := RemoveTagsInput.mk (aws.StringSlice [identifier])
                   (aws.StringSlice (Keys (IgnoreAWS removedTags))) in
    err ← RemoveTagsWithContext conn ctx input;
    match err with
    | Some e => mret (Some (fmt_Errorf ("untagging resource (" ++ identifier ++ ")") e))
    | None => UpdateTags_updated ctx conn identifier oldTags newTags
    end
  else UpdateTags_updated ctx conn identifier oldTags newTags.

End UpdateTags.

End elbv2.

Module ecs.

Definition Tags := tags_gen.Tags.
Definition KeyValueTags := tags_gen.KeyValueTags.
Definition UpdateTags := tags_gen.UpdateTags.

(** [ListTags(ctx, conn, identifier)] (ecs/tags_gen.go, lines 40-59). *)
Definition ListTags (ctx : Context) (conn : TagAPI) (identifier : string)
    : M (option tftags.KeyValueTags * error) :=
  let input := ListTagsForResourceInput.mk (aws.String identifier) in
  '(output, err) ← ListTagsForResourceWithContext conn ctx input;
  if tfawserr.ErrMessageContains err "InvalidParameterException"
       "The specified cluster is inactive. Specify an active cluster and try again."
  then mret (None, Some (NotFoundError err input))
  else
    match err with
    | Some e => mret (Some (New ctx any_nil), Some e)
    | None => mret (Some (KeyValueTags ctx (ListTagsForResourceOutput.Tags output)), None)
    end.

(** [ecs.ListServicesOutput]: the field [listServices] reads. *)
Record ListServicesOutput : Type := mkListServicesOutput {
  ServiceArns : list string;
}.

Section listServices.

(** The paginator of the AWS SDK: its state, [HasMorePages], and what
    [NextPage(ctx)] answers and the state it leaves. *)
Variable ListServicesPaginator : Type.
Variable HasMorePages : ListServicesPaginator → bool.
Variable NextPage_reply :
  Context → ListServicesPaginator → ListServicesOutput * error * ListServicesPaginator.

(** [pages.NextPage(ctx)] *)
Definition NextPage (ctx : Context) (pages : ListServicesPaginator)
    : M (ListServicesOutput * error * ListServicesPaginator) :=
  λ h, (NextPage_reply ctx pages, (h ++ [ListServices_NextPage ctx])%list).

(** The loop of [listServices] (services_data_source.go, lines 88-96), run
    for at most [fuel] iterations; [None] when they do not suffice. *)
Fixpoint listServices_loop (fuel : nat) (ctx : Context) (pages : ListServicesPaginator)
    (output : list string) : M (option (list string * error)) :=
  match fuel with
  | O => mret None
  | S fuel' =>
      if HasMorePages pages then
        '(page, err, pages') ← NextPage ctx pages;
        match err with
        | Some e => mret (Some ([], Some e))
        | None => listServices_loop fuel' ctx pages' (output ++ ServiceArns page)%list
        end
      else mret (Some (output, None))
  end.

(** [listServices(ctx, conn, input)] (lines 85-99); [pages] is
    [ecs.NewListServicesPaginator(conn, input)]. *)
Definition listServices (fuel : nat) (ctx : Context) (pages : ListServicesPaginator)
    : M (option (list string * error)) :=
  listServices_loop fuel ctx pages [].

End listServices.

End ecs.

(** ** The other retry closures of [config.go]

    [ConfigureProvider] pushes one closure on the [Retry] handlers of each
    of twenty-one service clients (lines 218-488).  Those of configservice,
    ec2 and wafv2 are [conns.configserviceConn_Retry], [conns.ec2Conn_Retry]
    and [conns.wafv2Conn_Retry]; the others follow, under the error codes
    of the AWS SDK they test. *)

Module codes.
Definition apigateway_ErrCodeConflictException : string := "ConflictException".
Definition apigatewayv2_ErrCodeConflictException : string := "ConflictException".
Definition applicationautoscaling_ErrCodeFailedResourceAccessException : string :=
  "FailedResourceAccessException".
Definition appconfig_ErrCodeConflictException : string := "ConflictException".
Definition appsync_ErrCodeConcurrentModificationException : string :=
  "ConcurrentModificationException".
Definition chime_ErrCodeBadRequestException : string := "BadRequestException".
Definition cloudhsmv2_ErrCodeCloudHsmInternalFailureException : string :=
  "CloudHsmInternalFailureException".
Definition cloudformation_ErrCodeOperationInProgressException : string :=
  "OperationInProgressException".
Definition dynamodb_ErrCodeLimitExceededException : string := "LimitExceededException".
Definition fms_ErrCodeInvalidOperationException : string := "InvalidOperationException".
Definition fms_ErrCodeInternalErrorException : string := "InternalErrorException".
Definition kafka_ErrCodeTooManyRequestsException : string := "TooManyRequestsException".
Definition kinesis_ErrCodeLimitExceededException : string := "LimitExceededException".
Definition lightsail_ErrCodeInvalidInputException : string := "InvalidInputException".
Definition organizations_ErrCodeConcurrentModificationException : string :=
  "ConcurrentModificationException".
Definition securityhub_ErrCodeResourceConflictException : string :=
  "ResourceConflictException".
Definition ssoadmin_ErrCodeConflictException : string := "ConflictException".
Definition storagegateway_ErrCodeInvalidGatewayRequestException : string :=
  "InvalidGatewayRequestException".
End codes.

Module handlers.

(** [if tfawserr.ErrMessageContains(r.Error, code, message) { r.Retryable = aws.Bool(true) }] *)
Definition retry_on_message (code message : string) : Handler := λ r,
  if tfawserr.ErrMessageContains (Error r) code message
  then set_Retryable true r else r.

(** [if tfawserr.ErrCodeEquals(r.Error, code) { r.Retryable = aws.Bool(true) }] *)
Definition retry_on_code (code : string) : Handler := λ r,
  if tfawserr.ErrCodeEquals (Error r) code
  then set_Retryable true r else r.

(** lines 218-225 *)
Definition apigatewayConn_Retry : Handler :=
  retry_on_message codes.apigateway_ErrCodeConflictException "try again later".

(** lines 227-234 *)
Definition apigatewayv2Conn_Retry : Handler :=
  retry_on_message codes.apigatewayv2_ErrCodeConflictException "try again later".

(** lines 237-244 *)
Definition applicationautoscalingConn_Retry : Handler := λ r,
  if negb (strings.HasPrefix (Operation_Name r) "Describe")
     && negb (strings.HasPrefix (Operation_Name r) "List")
  then r
  else retry_on_code codes.applicationautoscaling_ErrCodeFailedResourceAccessException r.

(** lines 249-255 *)
Definition appconfigConn_Retry : Handler := λ r,
  if String.eqb (Operation_Name r) "StartDeployment"
  then retry_on_code codes.appconfig_ErrCodeConflictException r
  else r.

(** lines 257-263 *)
Definition appsyncConn_Retry : Handler := λ r,
  if String.eqb (Operation_Name r) "CreateGraphqlApi"
  then retry_on_message codes.appsync_ErrCodeConcurrentModificationException
         "a GraphQL API creation is already in progress" r
  else r.

(** lines 265-273 *)
Definition chimeConn_Retry : Handler := λ r,
  if String.eqb (Operation_Name r) "CreateVoiceConnector"
  then retry_on_message codes.chime_ErrCodeBadRequestException
         "Service received a bad request" r
  else r.

(** lines 275-279 *)
Definition cloudhsmv2Conn_Retry : Handler :=
  retry_on_message codes.cloudhsmv2_ErrCodeCloudHsmInternalFailureException
    "request was rejected because of an AWS CloudHSM internal failure".

(** lines 321-325 *)
Definition cloudformationConn_Retry : Handler :=
  retry_on_message codes.cloudformation_ErrCodeOperationInProgressException
    "Another Operation on StackSet".

(** lines 328-335 *)
Definition dynamodbConn_Retry : Handler := λ r,
  if negb (String.eqb (Operation_Name r) "PutItem")
     && negb (String.eqb (Operation_Name r) "UpdateItem")
     && negb (String.eqb (Operation_Name r) "DeleteItem")
  then r
  else retry_on_message codes.dynamodb_ErrCodeLimitExceededException
         "Subscriber limit exceeded:" r.

(** lines 372-394 *)
Definition fmsConn_Retry : Handler := λ r,
  if case_of (Operation_Name r) ["AssociateAdminAccount"] then
    retry_on_message codes.fms_ErrCodeInvalidOperationException
      "Your AWS Organization is currently offboarding with AWS Firewall Manager. Please submit onboard request after offboarded." r
  else if case_of (Operation_Name r) ["DisassociateAdminAccount"] then
    retry_on_message codes.fms_ErrCodeInvalidOperationException
      "Your AWS Organization is currently onboarding with AWS Firewall Manager and cannot be offboarded." r
  else if case_of (Operation_Name r) ["PutPolicy"] then
    retry_on_code codes.fms_ErrCodeInternalErrorException r
  else r.

(** lines 396-400 *)
Definition kafkaConn_Retry : Handler :=
  retry_on_message codes.kafka_ErrCodeTooManyRequestsException "Too Many Requests".

(** lines 402-413: two [if] statements in sequence. *)
Definition kinesisConn_Retry : Handler := λ r,
  let r1 :=
    if String.eqb (Operation_Name r) "CreateStream"
    then retry_on_message codes.kinesis_ErrCodeLimitExceededException
           "simultaneously be in CREATING or DELETING" r
    else r in
  if String.eqb (Operation_Name r1) "CreateStream"
     || String.eqb (Operation_Name r1) "DeleteStream"
  then retry_on_message codes.kinesis_ErrCodeLimitExceededException
         "Rate exceeded for stream" r1
  else r1.

(** lines 415-427 *)
Definition lightsailConn_Retry : Handler := λ r,
  if case_of (Operation_Name r)
       ["CreateContainerService"; "UpdateContainerService";
        "CreateContainerServiceDeployment"]
  then
    retry_on_message codes.lightsail_ErrCodeInvalidInputException
      "Please try again in a few minutes" r
  else if case_of (Operation_Name r) ["DeleteContainerService"] then
    if tfawserr.ErrMessageContains (Error r) codes.lightsail_ErrCodeInvalidInputException
         "Please try again in a few minutes"
       || tfawserr.ErrMessageContains (Error r) codes.lightsail_ErrCodeInvalidInputException
            "Please wait for it to complete before trying again"
    then set_Retryable true r else r
  else r.

(** lines 429-435 *)
Definition organizationsConn_Retry : Handler :=
  retry_on_message codes.organizations_ErrCodeConcurrentModificationException
    "Try again later".

(** lines 437-441 *)
Definition s3Conn_Retry : Handler :=
  retry_on_message "OperationAborted"
    "A conflicting conditional operation is currently in progress against this resource. Please try again.".

(** lines 444-451 *)
Definition securityhubConn_Retry : Handler := λ r,
  if case_of (Operation_Name r) ["EnableOrganizationAdminAccount"]
  then retry_on_code codes.securityhub_ErrCodeResourceConflictException r
  else r.

(** lines 454-460 *)
Definition ssoadminConn_Retry : Handler := λ r,
  if String.eqb (Operation_Name r) "AttachManagedPolicyToPermissionSet"
     || String.eqb (Operation_Name r) "DetachManagedPolicyFromPermissionSet"
  then retry_on_code codes.ssoadmin_ErrCodeConflictException r
  else r.

(** lines 462-467 *)
Definition storagegatewayConn_Retry : Handler :=
  retry_on_message codes.storagegateway_ErrCodeInvalidGatewayRequestException
    "The specified gateway proxy network connection is busy".

(** The closures in the order [ConfigureProvider] pushes them, each under
    the name of the client it is pushed on; [err] is the variable of
    [ConfigureProvider] that two of them capture. *)
Definition retry_handlers (err : error) : list (string * Handler) :=
  [ ("apigateway", apigatewayConn_Retry);
    ("apigatewayv2", apigatewayv2Conn_Retry);
    ("applicationautoscaling", applicationautoscalingConn_Retry);
    ("appconfig", appconfigConn_Retry);
    ("appsync", appsyncConn_Retry);
    ("chime", chimeConn_Retry);
    ("cloudhsmv2", cloudhsmv2Conn_Retry);
    ("configservice", conns.configserviceConn_Retry err);
    ("cloudformation", cloudformationConn_Retry);
    ("dynamodb", dynamodbConn_Retry);
    ("ec2", conns.ec2Conn_Retry);
    ("fms", fmsConn_Retry);
    ("kafka", kafkaConn_Retry);
    ("kinesis", kinesisConn_Retry);
    ("lightsail", lightsailConn_Retry);
    ("organizations", organizationsConn_Retry);
    ("s3", s3Conn_Retry);
    ("securityhub", securityhubConn_Retry);
    ("ssoadmin", ssoadminConn_Retry);
    ("storagegateway", storagegatewayConn_Retry);
    ("wafv2", conns.wafv2Conn_Retry err) ].

End handlers.

(** ** The remaining tag helpers *)

Module codeartifact.
Definition ListTags := tags_gen.ListTags.
Definition Tags := tags_gen.Tags.
Definition KeyValueTags := tags_gen.KeyValueTags.
Definition UpdateTags := tags_gen.UpdateTags.
End codeartifact.

(** [wafv2.TagInfoForResource] and [wafv2.ListTagsForResourceOutput]: the
    output holds a pointer to the tag information, which may be nil. *)
Module TagInfoForResource.
Record t : Type := mk { ResourceARN : option string; TagList : list Tag }.
End TagInfoForResource.

Module WAFV2ListTagsForResourceOutput.
Record t : Type := mk {
  NextMarker : option string;
  TagInfoForResource : option TagInfoForResource.t;
}.
End WAFV2ListTagsForResourceOutput.

Module wafv2_list.

(** [ListTagsForResourceWithContext] of [wafv2iface.WAFV2API]. *)
Record WAFV2API : Type := mkWAFV2API {
  ListTagsForResource_reply :
    History → Context → ListTagsForResourceInput.t
    → WAFV2ListTagsForResourceOutput.t * error;
}.

(** [conn.ListTagsForResourceWithContext(ctx, input)] *)
Definition ListTagsForResourceWithContext (conn : WAFV2API) (ctx : Context)
    (input : ListTagsForResourceInput.t) : M (WAFV2ListTagsForResourceOutput.t * error) :=
  λ h, (ListTagsForResource_reply conn h ctx input,
        (h ++ [ListTagsForResource ctx input])%list).

(** [ListTags(ctx, conn, identifier)] (wafv2/tags_gen.go, lines 18-30).
    [output.TagInfoForResource.TagList] dereferences the pointer without a
    test and panics when it is nil. *)
Definition ListTags (ctx : Context) (conn : WAFV2API) (identifier : string)
    : M (outcome (option tftags.KeyValueTags * error)) :=
  let input := ListTagsForResourceInput.mk (aws.String identifier) in
  '(output, err) ← ListTagsForResourceWithContext conn ctx input;
  match err with
  | Some e => mret (Returns (Some (New ctx any_nil), Some e))
  | None =>
      match WAFV2ListTagsForResourceOutput.TagInfoForResource output with
      | None => mret Panics
      | Some info =>
          mret (Returns (Some (wafv2.KeyValueTags ctx (TagInfoForResource.TagList info)), None))
      end
  end.

End wafv2_list.

Module ecs_tag.

Section GetTag.

(** [KeyValueTags.KeyExists], [KeyValueTags.KeyValue] and
    [tfresource.NewEmptyResultError(nil)] are not among the sources and the
    spec does not describe them. *)
Variable KeyExists : tftags.KeyValueTags → string → bool.
Variable KeyValue : tftags.KeyValueTags → string → option string.
Variable NewEmptyResultError_nil : err.

(** [GetTag(ctx, conn, identifier, key)] (ecs/tags_gen.go, lines 23-35).
    A nil [listTags] is a map without entries. *)
Definition GetTag (ctx : Context) (conn : TagAPI) (identifier key : string)
    : M (option string * error) :=
  '(listTags, err) ← ecs.ListTags ctx conn identifier;
  match err with
  | Some e => mret (None, Some e)
  | None =>
      let listTags := default (∅ : gmap string string) listTags in
      if negb (KeyExists listTags key)
      then mret (None, Some NewEmptyResultError_nil)
      else mret (KeyValue listTags key, None)
  end.

End GetTag.

End ecs_tag.

(** ** Notions used to state further properties *)

(** The error, if any, is not an [awserr.Error] and wraps none. *)
Definition no_awserr (e : error) : Prop :=
  match e with
  | Some e' => As_awserr e' = None
  | None => True
  end.

(** The handler returns the request as it came or with [Retryable] set. *)
Definition only_marks (f : Handler) : Prop :=
  ∀ r, f r = r ∨ ∃ b, f r = set_Retryable b r.

(** The handler leaves the operation and the error of a request alone. *)
Definition keeps_failure (f : Handler) : Prop :=
  ∀ r, Operation_Name (f r) = Operation_Name r ∧ Error (f r) = Error r.

(** What a tagging call does to the tags of the resource when the service
    carries it out: an untag call removes the keys it names, a tag call
    writes its tags in order, and a call that lists tags changes nothing. *)
Definition untag_keys (keys : list (option string)) (remote : gmap string string)
    : gmap string string :=
  fold_left (λ m k, delete (aws.StringValue k) m) keys remote.

Definition write_tags (tags : list Tag) (remote : gmap string string)
    : gmap string string :=
  fold_left (λ m tag, <[aws.StringValue (Key tag) := aws.StringValue (Value tag)]> m)
    tags remote.

Definition apply_call (remote : gmap string string) (c : Call) : gmap string string :=
  match c with
  | UntagResource _ input => untag_keys (UntagResourceInput.TagKeys input) remote
  | TagResource _ input => write_tags (TagResourceInput.Tags input) remote
  | RemoveTags _ input => untag_keys (RemoveTagsInput.TagKeys input) remote
  | AddTags _ input => write_tags (AddTagsInput.Tags input) remote
  | ListTagsForResource _ _ | DescribeTags _ _ | ListServices_NextPage _ => remote
  end.

Definition apply_calls (cs : list Call) (remote : gmap string string)
    : gmap string string :=
  fold_left apply_call cs remote.

(** Every call of the service succeeds. *)
Definition always_succeeds (conn : TagAPI) : Prop :=
  (∀ h ctx input, UntagResource_reply conn h ctx input = None) ∧
  (∀ h ctx input, TagResource_reply conn h ctx input = None).

(** The paginator, asked with [ctx], serves the pages [outs] one after the
    other without error and then has no more. *)
Inductive serves {P : Type} (HasMorePages : P → bool)
    (NextPage_reply : Context → P → ecs.ListServicesOutput * error * P)
    (ctx : Context) : P → list ecs.ListServicesOutput → Prop :=
| serves_done pages :
    HasMorePages pages = false →
    serves HasMorePages NextPage_reply ctx pages []
| serves_page pages out pages' outs :
    HasMorePages pages = true →
    NextPage_reply ctx pages = (out, None, pages') →
    serves HasMorePages NextPage_reply ctx pages' outs →
    serves HasMorePages NextPage_reply ctx pages (out :: outs).

(** A paginator over a fixed list of pages still to serve. *)
Definition list_paginator_HasMorePages (rest : list (list string)) : bool :=
  match rest with [] => false | _ :: _ => true end.

Definition list_paginator_NextPage (_ : Context) (rest : list (list string))
    : ecs.ListServicesOutput * error * list (list string) :=
  match rest with
  | [] => ({| ecs.ServiceArns := [] |}, Some (errors_New "no more pages available"), [])
  | page :: rest' => ({| ecs.ServiceArns := page |}, None, rest')
  end.

(** A service whose calls all succeed and that has no tags to list. *)
Definition succeeding_conn : TagAPI :=
  {| ListTagsForResource_reply := λ _ _ _,
       ({| ListTagsForResourceOutput.Tags := [] |}, None);
     UntagResource_reply := λ _ _ _, None;
     TagResource_reply := λ _ _ _, None |}.

(** Every untag and tag call of the load balancer service succeeds. *)
Definition elbv2_always_succeeds (conn : ELBV2API) : Prop :=
  (∀ h ctx input, RemoveTags_reply conn h ctx input = None) ∧
  (∀ h ctx input, AddTags_reply conn h ctx input = None).

(** A load balancer service whose calls all succeed. *)
Definition elbv2_succeeding_conn : ELBV2API :=
  {| DescribeTags_reply := λ _ _ _, ({| DescribeTagsOutput.TagDescriptions := [] |}, None);
     RemoveTags_reply := λ _ _ _, None;
     AddTags_reply := λ _ _ _, None |}.

(** A service whose tag call fails and whose other calls succeed. *)
Definition failing_tag_conn : TagAPI :=
  {| ListTagsForResource_reply := λ _ _ _,
       ({| ListTagsForResourceOutput.Tags := [] |}, None);
     UntagResource_reply := λ _ _ _, None;
     TagResource_reply := λ _ _ _, Some (awserr_New "TooManyTagsException" "limit") |}.

(** Libraries as [samples.lib], but the service clients start with a
    handler that marks every request retryable, as a default retryer does
    for an error with status code 500. *)
Definition lib_retrying_by_default : conns.Libraries :=
  {| conns.GetAwsConfig := λ c, (conns.Region c, None);
     conns.ValidateRegion := λ _, None;
     conns.GetSession := λ _, None;
     conns.GetAwsAccountIDAndPartition := λ _, ("123456789012", "aws", None);
     conns.PartitionForRegion := λ _, Some "amazonaws.com";
     conns.sdkv1Conns_Retry := [set_Retryable true] |}.

(** A paginator that serves one page and fails on the next. *)
Definition failing_paginator_NextPage (_ : Context) (served : nat)
    : ecs.ListServicesOutput * error * nat :=
  match served with
  | O => ({| ecs.ServiceArns := ["arn:aws:ecs:us-east-1:123456789012:service/c/s"] |},
          None, S served)
  | S _ => ({| ecs.ServiceArns := [] |},
            Some (awserr_New "ClusterNotFoundException" "Cluster not found."), served)
  end.

(** ** Notions used to state the properties *)

(** The entry a tag contributes to the map [KeyValueTags] builds. *)
Definition Tag_entry (tag : Tag) : string * option string :=
  (aws.StringValue (Key tag), Value tag).

(** Started after any history, the computation only appends calls, and
    each call it appends carries the context [ctx]. *)
Definition forwards_context {A} (ctx : Context) (m : M A) : Prop :=
  ∀ h : History, ∃ made : list Call,
    (m h).2 = (h ++ made)%list ∧ Forall (λ c, Call_ctx c = ctx) made.

(** ** Sample inputs *)

Module samples.

(** A tag set and its tags listed in an order other than [Tags] lists them. *)
Definition tags : gmap string string :=
  <["Name" := "web"]> (<["Environment" := "prod"]> ∅).

Definition tag_list : list Tag :=
  [ {| Key := Some "Name"; Value := Some "web" |};
    {| Key := Some "Environment"; Value := Some "prod" |} ].

(** A load balancer whose [DescribeTags] answers with one description. *)
Definition elbv2_conn : ELBV2API :=
  {| DescribeTags_reply := λ _ _ input,
       ({| DescribeTagsOutput.TagDescriptions :=
             [ {| TagDescription.ResourceArn := None;
                  TagDescription.Tags := tag_list |} ] |}, None);
     RemoveTags_reply := λ _ _ _, None;
     AddTags_reply := λ _ _ _, None |}.

(** A service whose untag call fails and whose other calls succeed. *)
Definition failing_untag_conn : TagAPI :=
  {| ListTagsForResource_reply := λ _ _ _,
       ({| ListTagsForResourceOutput.Tags := tag_list |}, None);
     UntagResource_reply := λ _ _ _, Some (awserr_New "ThrottlingException" "Rate exceeded");
     TagResource_reply := λ _ _ _, None |}.

(** Libraries whose calls all succeed, for the account [123456789012] of
    the partition [aws]; the service clients start without retry handlers. *)
Definition lib : conns.Libraries :=
  {| conns.GetAwsConfig := λ c, (conns.Region c, None);
     conns.ValidateRegion := λ _, None;
     conns.GetSession := λ _, None;
     conns.GetAwsAccountIDAndPartition := λ _, ("123456789012", "aws", None);
     conns.PartitionForRegion := λ _, Some "amazonaws.com";
     conns.sdkv1Conns_Retry := [] |}.

Definition config (allowed forbidden : list string) : conns.Config :=
  {| conns.AllowedAccountIds := allowed;
     conns.ForbiddenAccountIds := forbidden;
     conns.Region := "us-east-1";
     conns.SkipRegionValidation := false;
     conns.TerraformVersion := "1.5.0" |}.

Definition client : conns.AWSClient :=
  {| conns.AccountID := "";
     conns.DNSSuffix := "";
     conns.Partition := "";
     conns.client_Region := "";
     conns.client_TerraformVersion := "";
     conns.configserviceConn_Handlers_Retry := [];
     conns.ec2Conn_Handlers_Retry := [];
     conns.wafv2Conn_Handlers_Retry := [] |}.

(** A failed request of operation [op] with an [awserr.Error]. *)
Definition failed (op code message : string) (retries : Z) : Request :=
  {| Operation_Name := op;
     Error := Some (awserr_New code message);
     RetryCount := retries;
     Retryable := None |}.

End samples.

(** * Properties *)

(** ** Retry handlers *)

Lemma Retryable_set_Retryable b r : Retryable (set_Retryable b r) = Some b.
Proof. reflexivity. Qed.

Lemma case_of_elem_of s labels : case_of s labels = true ↔ s ∈ labels.
Proof.
  induction labels as [|l labels IH]; simpl.
  - split; [discriminate | intros H; inversion H].
  - rewrite orb_true_iff, IH, String.eqb_eq, elem_of_cons. tauto.
Qed.

(** C3: for the four organization config rule operations, a failure that is
    an OrganizationAccessDeniedException with the master-account message is
    marked retryable exactly when the retry count is below 9, and is marked
    not retryable from 9 on.  This holds whatever error the closure
    captured from [ConfigureProvider]. *)
Theorem configservice_organization_config_rule_retry (err : error) (r : Request) :
  Operation_Name r ∈
    ["DeleteOrganizationConfigRule"; "DescribeOrganizationConfigRules";
     "DescribeOrganizationConfigRuleStatuses"; "PutOrganizationConfigRule"] →
  tfawserr.ErrMessageContains (Error r)
    configservice.ErrCodeOrganizationAccessDeniedException
    "This action can be only made by AWS Organization's master account." = true →
  (Retryable (conns.configserviceConn_Retry err r) = Some true ↔ RetryCount r < 9) ∧
  (9 ≤ RetryCount r → Retryable (conns.configserviceConn_Retry err r) = Some false).
Proof.
  intros Hop Hmsg. apply case_of_elem_of in Hop.
  unfold conns.configserviceConn_Retry. rewrite Hop, Hmsg. simpl negb. cbv iota.
  destruct (Z.ltb_spec (RetryCount r) 9) as [Hlt|Hge];
    rewrite Retryable_set_Retryable.
  - split; [split; [lia | reflexivity] | lia].
  - split; [split; [discriminate | lia] | reflexivity].
Qed.

Lemma configservice_organization_config_rule_retry_witness :
  let r := samples.failed "PutOrganizationConfigRule" "OrganizationAccessDeniedException"
             "This action can be only made by AWS Organization's master account." 3 in
  (Retryable (conns.configserviceConn_Retry None r) = Some true ↔ RetryCount r < 9) ∧
  (9 ≤ RetryCount r → Retryable (conns.configserviceConn_Retry None r) = Some false).
Proof.
  apply (configservice_organization_config_rule_retry None
           (samples.failed "PutOrganizationConfigRule" "OrganizationAccessDeniedException"
              "This action can be only made by AWS Organization's master account." 3)).
  - apply case_of_elem_of. reflexivity.
  - reflexivity.
Defined.

(** C7: a RunInstances request that failed with the code
    InsufficientInstanceCapacity leaves the ec2 handler marked not
    retryable, whatever [Retryable] held before, in particular when the
    SDK's default retryer had set it to true. *)
Theorem ec2_RunInstances_InsufficientInstanceCapacity_not_retryable (r : Request) :
  Operation_Name r = "RunInstances" →
  tfawserr.ErrCodeEquals (Error r) "InsufficientInstanceCapacity" = true →
  Retryable (conns.ec2Conn_Retry r) = Some false.
Proof.
  intros Hop Hcode. unfold conns.ec2Conn_Retry. rewrite Hop, Hcode. reflexivity.
Qed.

Lemma ec2_RunInstances_InsufficientInstanceCapacity_not_retryable_witness :
  Retryable (conns.ec2Conn_Retry
    {| Operation_Name := "RunInstances";
       Error := Some (awserr_New "InsufficientInstanceCapacity"
                        "There is no Spot capacity available that matches your request.");
       RetryCount := 0;
       Retryable := Some true |}) = Some false.
Proof.
  apply ec2_RunInstances_InsufficientInstanceCapacity_not_retryable; reflexivity.
Defined.

(** ** [ConfigureProvider] *)

(** When [ConfigureProvider] returns a client, the variable [err] that the
    configservice and wafv2 closures capture holds [nil]: every assignment
    to it is followed by a return when it is not. *)
Lemma ConfigureProvider_handlers lib c client client' d :
  conns.ConfigureProvider lib c client = (Some client', d) →
  conns.configserviceConn_Handlers_Retry client' =
    PushBack (conns.configserviceConn_Retry None) (conns.sdkv1Conns_Retry lib) ∧
  conns.ec2Conn_Handlers_Retry client' =
    PushBack conns.ec2Conn_Retry (conns.sdkv1Conns_Retry lib) ∧
  conns.wafv2Conn_Handlers_Retry client' =
    PushBack (conns.wafv2Conn_Retry None) (conns.sdkv1Conns_Retry lib).
Proof.
  unfold conns.ConfigureProvider.
  destruct (conns.GetAwsConfig lib c) as [region [e|]]; [discriminate|].
  destruct (if negb _ then _ else _) as [e|]; [discriminate|].
  destruct (conns.GetSession lib _) as [e|]; [discriminate|].
  destruct (conns.GetAwsAccountIDAndPartition lib _) as [[accountID partition] [e|]];
    [discriminate|].
  destruct (_ && _); [discriminate|].
  destruct (_ && _); [discriminate|].
  intros [= <- <-]. simpl. auto.
Qed.

(** The account filter as [ConfigureProvider] computes it, once the account
    ID is resolved: the account is rejected when [ForbiddenAccountIds] is
    non-empty and the account is in [AllowedAccountIds], or when
    [AllowedAccountIds] is non-empty and the account is not in it. *)
Lemma ConfigureProvider_account_filter lib c client region accountID partition :
  conns.GetAwsConfig lib c = (region, None) →
  (if negb (conns.SkipRegionValidation c) then conns.ValidateRegion lib region else None) = None →
  conns.GetSession lib c = None →
  conns.GetAwsAccountIDAndPartition lib c = (accountID, partition, None) →
  let rejected :=
    conns.nonempty (conns.ForbiddenAccountIds c)
      && conns.range_matches accountID (conns.AllowedAccountIds c)
    || conns.nonempty (conns.AllowedAccountIds c)
      && negb (conns.range_matches accountID (conns.AllowedAccountIds c)) in
  if rejected
  then conns.ConfigureProvider lib c client =
         (None, diag.Errorf "AWS account ID not allowed: " accountID)
  else ∃ client', conns.ConfigureProvider lib c client = (Some client', []).
Proof.
  intros Hcfg Hregion Hsess Hacct. unfold conns.ConfigureProvider.
  rewrite Hcfg, Hregion, Hsess, Hacct. simpl.
  destruct (_ && _); simpl; [reflexivity|].
  destruct (_ && _); simpl; [reflexivity|]. eauto.
Qed.

(** C2: the account [123456789012] is configured although it is the one
    forbidden account (no allow-list is set); and it is refused, although it
    is allowed and not forbidden, as soon as some other account is
    forbidden.  The loop under [len(c.ForbiddenAccountIds) > 0] ranges over
    [c.AllowedAccountIds]. *)
Theorem ConfigureProvider_forbidden_account_ids_not_consulted :
  (∃ client',
     conns.ConfigureProvider samples.lib (samples.config [] ["123456789012"]) samples.client
       = (Some client', []) ∧ conns.AccountID client' = "123456789012") ∧
  conns.ConfigureProvider samples.lib
      (samples.config ["123456789012"] ["999999999999"]) samples.client
    = (None, diag.Errorf "AWS account ID not allowed: " "123456789012").
Proof.
  split; [eexists; split; reflexivity | reflexivity].
Qed.

(** C6: on the client [ConfigureProvider] returns, the configservice retry
    handlers leave a DeleteOrganizationConformancePack request that failed
    with ResourceInUseException unmarked: the closure tests the captured
    [err], which is nil, where it means [r.Error]. *)
Theorem configservice_ResourceInUse_not_marked :
  let r := samples.failed "DeleteOrganizationConformancePack" "ResourceInUseException"
             "The conformance pack is in use." 0 in
  ∃ client',
    conns.ConfigureProvider samples.lib (samples.config [] []) samples.client
      = (Some client', []) ∧
    Retryable (Run (conns.configserviceConn_Handlers_Retry client') r) = None ∧
    Retryable (conns.configserviceConn_Retry (Error r) r) = Some true.
Proof.
  eexists; split; [reflexivity|]. split; reflexivity.
Qed.

(** The same for every such request: with the captured [err] nil, the
    handler returns the request as it came. *)
Lemma configservice_ResourceInUse_unchanged (r : Request) :
  Operation_Name r = "DeleteOrganizationConformancePack" →
  tfawserr.ErrCodeEquals (Error r) configservice.ErrCodeResourceInUseException = true →
  conns.configserviceConn_Retry None r = r.
Proof.
  intros Hop Hcode. unfold conns.configserviceConn_Retry. rewrite Hop. simpl.
  destruct (Error r) as [e|]; [|discriminate]. simpl in *.
  destruct (As_awserr e) as [[code msg]|]; [|discriminate].
  apply String.eqb_eq in Hcode as ->. reflexivity.
Qed.

(** C5: on the client [ConfigureProvider] returns, the wafv2 retry handlers
    mark a CreateIPSet request that failed with WAFTagOperationException and
    "Retry your request" retryable, but leave one that failed with
    WAFTagOperationInternalErrorException unmarked: the closure tests the
    captured [err], which is nil, where it means [r.Error]. *)
Theorem wafv2_TagOperationInternalError_not_marked :
  ∃ client',
    conns.ConfigureProvider samples.lib (samples.config [] []) samples.client
      = (Some client', []) ∧
    Retryable (Run (conns.wafv2Conn_Handlers_Retry client')
      (samples.failed "CreateIPSet" "WAFTagOperationException"
         "Retry your request" 0)) = Some true ∧
    Retryable (Run (conns.wafv2Conn_Handlers_Retry client')
      (samples.failed "CreateIPSet" "WAFTagOperationInternalErrorException"
         "Retry your request" 0)) = None.
Proof.
  eexists; split; [reflexivity|]. split; reflexivity.
Qed.

Lemma ErrMessageContains_other_code e code code' message :
  tfawserr.ErrCodeEquals e code = true → code ≠ code' →
  tfawserr.ErrMessageContains e code' message = false.
Proof.
  unfold tfawserr.ErrCodeEquals, tfawserr.ErrMessageContains.
  destruct e as [e|]; [|reflexivity].
  destruct (As_awserr e) as [[c m]|]; [|reflexivity].
  intros ->%String.eqb_eq Hne. apply String.eqb_neq in Hne. rewrite Hne. reflexivity.
Qed.

(** The same for every request: with the captured [err] nil, an error
    with the code WAFTagOperationInternalErrorException is never marked. *)
Lemma wafv2_TagOperationInternalError_unchanged (r : Request) :
  tfawserr.ErrCodeEquals (Error r)
    wafv2_codes.ErrCodeWAFTagOperationInternalErrorException = true →
  conns.wafv2Conn_Retry None r = r.
Proof.
  intros Hcode. unfold conns.wafv2Conn_Retry. cbv zeta.
  rewrite (ErrMessageContains_other_code _ _
             wafv2_codes.ErrCodeWAFInternalErrorException _ Hcode) by discriminate.
  cbv iota.
  rewrite (ErrMessageContains_other_code _ _
             wafv2_codes.ErrCodeWAFServiceLinkedRoleErrorException _ Hcode) by discriminate.
  cbv iota.
  rewrite (ErrMessageContains_other_code _ _
             wafv2_codes.ErrCodeWAFTagOperationException _ Hcode) by discriminate.
  simpl. destruct (_ || _); reflexivity.
Qed.

(** ** Tag lists and tag sets *)

Lemma KeyValueTags_fold (l : list Tag) :
  fold_left (λ (m : gmap string (option string)) tag,
               <[aws.StringValue (Key tag) := Value tag]> m) l ∅
  = list_to_map (Tag_entry <$> reverse l).
Proof.
  induction l as [|tag l IH] using rev_ind; [reflexivity|].
  rewrite fold_left_app, reverse_snoc. simpl. rewrite IH. reflexivity.
Qed.

Lemma Tag_entry_Tags (t : gmap string string) :
  Tag_entry <$> tags_gen.Tags t = prod_map id Some <$> map_to_list t.
Proof.
  unfold tags_gen.Tags, Map. rewrite <- list_fmap_compose.
  apply list_fmap_ext. intros _ [k v] _. reflexivity.
Qed.

(** C4: a tag set survives the conversion to the service's tag list and
    back, in whatever order the tag list comes: for every list [l] that is a
    permutation of [Tags t], [KeyValueTags ctx l] is [t].  The two functions
    of shield and of wafv2 are the same code. *)
Theorem KeyValueTags_Tags_roundtrip (ctx : Context) (t : gmap string string) (l : list Tag) :
  l ≡ₚ shield.Tags t →
  shield.KeyValueTags ctx l = t ∧ wafv2.KeyValueTags ctx l = t.
Proof.
  intros Hperm.
  assert (tags_gen.KeyValueTags ctx l = t) as H; [|split; exact H].
  assert (Tag_entry <$> reverse l ≡ₚ prod_map id Some <$> map_to_list t) as Hentries.
  { rewrite <- Tag_entry_Tags, fmap_reverse, reverse_Permutation.
    apply fmap_Permutation, Hperm. }
  assert (NoDup (Tag_entry <$> reverse l).*1) as Hkeys.
  { rewrite Hentries, <- list_fmap_compose.
    rewrite (list_fmap_ext _ fst (map_to_list t)) by (by intros _ [] _).
    apply NoDup_fst_map_to_list. }
  unfold tags_gen.KeyValueTags, New. rewrite KeyValueTags_fold.
  rewrite (list_to_map_proper _ _ Hkeys Hentries).
  rewrite list_to_map_fmap, list_to_map_to_list, <- map_fmap_compose.
  apply map_fmap_id.
Qed.

Lemma KeyValueTags_Tags_roundtrip_witness :
  samples.tag_list ≡ₚ shield.Tags samples.tags ∧
  shield.KeyValueTags Background samples.tag_list = samples.tags ∧
  wafv2.KeyValueTags Background samples.tag_list = samples.tags.
Proof.
  assert (samples.tag_list ≡ₚ shield.Tags samples.tags) as Hperm
    by (vm_compute; apply perm_swap).
  split; [exact Hperm|].
  apply (KeyValueTags_Tags_roundtrip Background samples.tags samples.tag_list Hperm).
Defined.

(** A later tag overwrites an earlier one with the same key, and a nil key
    reads as the empty key. *)
Example KeyValueTags_last_wins :
  tags_gen.KeyValueTags Background
    [ {| Key := Some "k"; Value := Some "1" |};
      {| Key := None; Value := None |};
      {| Key := Some "k"; Value := Some "2" |} ]
  = <["k" := "2"]> (<["" := ""]> ∅).
Proof. vm_compute. reflexivity. Qed.

(** ** [UpdateTags] *)

Lemma len_pos (t : gmap string string) : (0 <? len t) = bool_decide (t ≠ ∅).
Proof.
  unfold len. case_bool_decide as Ht.
  - apply Z.ltb_lt. apply map_size_non_empty_iff in Ht. lia.
  - apply Z.ltb_ge. subst t. rewrite map_size_empty. lia.
Qed.

Lemma Removed_same (t : gmap string string) : Removed t t = ∅.
Proof.
  apply map_empty. intros k. apply map_lookup_filter_None. right.
  intros v Hv. simpl. congruence.
Qed.

Lemma Updated_same (t : gmap string string) : Updated t t = ∅.
Proof.
  apply map_empty. intros k. apply map_lookup_filter_None. right.
  intros v Hv. simpl. congruence.
Qed.

Lemma UpdateTags_updated_run IgnoreAWS ctx conn identifier oldTags newTags h :
  let input := TagResourceInput.mk (aws.String identifier)
                 (tags_gen.Tags (IgnoreAWS (Updated oldTags newTags))) in
  tags_gen.UpdateTags_updated IgnoreAWS ctx conn identifier oldTags newTags h =
    if bool_decide (Updated oldTags newTags ≠ ∅)
    then (fmt_Errorf ("tagging resource (" ++ identifier ++ ")")
            <$> TagResource_reply conn h ctx input,
          h ++ [TagResource ctx input])%list
    else (None, h).
Proof.
  intros input. unfold tags_gen.UpdateTags_updated. rewrite len_pos.
  case_bool_decide; [|reflexivity].
  unfold mbind, M_bind, TagResourceWithContext. fold input.
  destruct (TagResource_reply conn h ctx input); reflexivity.
Qed.

Lemma UpdateTags_run IgnoreAWS ctx conn identifier oldTagsMap newTagsMap h :
  let oldTags := New ctx oldTagsMap in
  let newTags := New ctx newTagsMap in
  let input := UntagResourceInput.mk (aws.String identifier)
                 (aws.StringSlice (Keys (IgnoreAWS (Removed oldTags newTags)))) in
  tags_gen.UpdateTags IgnoreAWS ctx conn identifier oldTagsMap newTagsMap h =
    if bool_decide (Removed oldTags newTags ≠ ∅)
    then
      match UntagResource_reply conn h ctx input with
      | Some e =>
          (Some (fmt_Errorf ("untagging resource (" ++ identifier ++ ")") e),
           (h ++ [UntagResource ctx input])%list)
      | None =>
          tags_gen.UpdateTags_updated IgnoreAWS ctx conn identifier oldTags newTags
            (h ++ [UntagResource ctx input])%list
      end
    else tags_gen.UpdateTags_updated IgnoreAWS ctx conn identifier oldTags newTags h.
Proof.
  intros oldTags newTags input. unfold tags_gen.UpdateTags.
  fold oldTags newTags. rewrite len_pos.
  case_bool_decide; [|reflexivity].
  unfold mbind, M_bind, UntagResourceWithContext. fold input.
  destruct (UntagResource_reply conn h ctx input); reflexivity.
Qed.

(** C1: the calls [UpdateTags] makes are, in this order, one untag call
    exactly when [oldTags.Removed(newTags)] is non-empty, and then one tag
    call exactly when [oldTags.Updated(newTags)] is non-empty, unless the
    untag call was made and failed.  With equal tag sets it makes no call
    and returns nil.  When the untag call fails, it is the only call made
    and the result wraps its error.  [shield.UpdateTags] and
    [ecs.UpdateTags] are this function. *)
Theorem UpdateTags_calls IgnoreAWS ctx conn identifier oldTagsMap newTagsMap (h : History) :
  let oldTags := New ctx oldTagsMap in
  let newTags := New ctx newTagsMap in
  let untag_input := UntagResourceInput.mk (aws.String identifier)
                       (aws.StringSlice (Keys (IgnoreAWS (Removed oldTags newTags)))) in
  let tag_input := TagResourceInput.mk (aws.String identifier)
                     (tags_gen.Tags (IgnoreAWS (Updated oldTags newTags))) in
  let untag_err := UntagResource_reply conn h ctx untag_input in
  let untag_failed := Removed oldTags newTags ≠ ∅ ∧ untag_err ≠ None in
  let made :=
    ((if decide (Removed oldTags newTags ≠ ∅) then [UntagResource ctx untag_input] else [])
     ++ (if decide untag_failed then []
         else if decide (Updated oldTags newTags ≠ ∅) then [TagResource ctx tag_input]
         else []))%list in
  let run := tags_gen.UpdateTags IgnoreAWS ctx conn identifier oldTagsMap newTagsMap h in
  run.2 = (h ++ made)%list ∧
  (oldTags = newTags → made = [] ∧ run.1 = None) ∧
  (Removed oldTags newTags ≠ ∅ → ∀ e, untag_err = Some e →
     run.1 = Some (fmt_Errorf ("untagging resource (" ++ identifier ++ ")") e) ∧
     made = [UntagResource ctx untag_input]).
Proof.
  intros oldTags newTags untag_input tag_input untag_err untag_failed made run.
  assert (run.2 = (h ++ made)%list ∧
          (Removed oldTags newTags ≠ ∅ → ∀ e, untag_err = Some e →
             run.1 = Some (fmt_Errorf ("untagging resource (" ++ identifier ++ ")") e)) ∧
          (Removed oldTags newTags = ∅ → Updated oldTags newTags = ∅ → run.1 = None))
    as (Hrun & Hfail & Hnil).
  { subst run made untag_failed. rewrite UpdateTags_run.
    fold oldTags newTags untag_input untag_err.
    case_bool_decide as Hrem; [destruct untag_err as [e|] eqn:He|];
      rewrite ?UpdateTags_updated_run; fold tag_input;
      try case_bool_decide; repeat case_decide; simpl;
      rewrite <- ?app_assoc, ?app_nil_r; simpl;
      try (exfalso; intuition congruence);
      (split; [reflexivity | split; intros; congruence]). }
  split; [exact Hrun|]. split.
  - intros Heq. assert (Removed oldTags newTags = ∅) as Hr
      by (rewrite Heq; apply Removed_same).
    assert (Updated oldTags newTags = ∅) as Hu
      by (rewrite Heq; apply Updated_same).
    split; [|by apply Hnil]. subst made untag_failed.
    rewrite decide_False by (by rewrite Hr; intros ?).
    rewrite decide_False by (by rewrite Hr; intros [? _]).
    rewrite decide_False by (by rewrite Hu; intros ?). reflexivity.
  - intros Hrem e He. split; [by apply Hfail|]. subst made untag_failed.
    rewrite decide_True by done.
    rewrite decide_True by (split; [done|by rewrite He]). reflexivity.
Qed.

(** Replacing one tag and changing another: tag [a] is removed, tags [b]
    and [c] are written, and the untag call comes first. *)
Example UpdateTags_untag_then_tag :
  ∃ keys tags,
    tags_gen.UpdateTags id Background
      {| ListTagsForResource_reply := λ _ _ _, ({| ListTagsForResourceOutput.Tags := [] |}, None);
         UntagResource_reply := λ _ _ _, None;
         TagResource_reply := λ _ _ _, None |}
      "arn:aws:shield::123456789012:protection/p"
      (any_map_string (<["a" := "1"]> (<["b" := "2"]> ∅)))
      (any_map_string (<["b" := "3"]> (<["c" := "4"]> ∅))) []
    = (None,
       [ UntagResource Background (UntagResourceInput.mk
           (Some "arn:aws:shield::123456789012:protection/p") keys);
         TagResource Background (TagResourceInput.mk
           (Some "arn:aws:shield::123456789012:protection/p") tags) ]) ∧
    keys = [Some "a"] ∧ length tags = 2%nat.
Proof. do 2 eexists. split; [vm_compute; reflexivity|]. split; reflexivity. Qed.

(** When the untag call fails, no tag call follows. *)
Example UpdateTags_untag_fails :
  ∃ keys,
    tags_gen.UpdateTags id Background samples.failing_untag_conn "arn"
      (any_map_string (<["a" := "1"]> ∅)) (any_map_string (<["c" := "4"]> ∅)) []
    = (Some (fmt_Errorf "untagging resource (arn)"
               (awserr_New "ThrottlingException" "Rate exceeded")),
       [ UntagResource Background (UntagResourceInput.mk (Some "arn") keys) ]).
Proof. eexists. vm_compute. reflexivity. Qed.

(** ** [ListTags] *)

(** C8: when [ListTagsForResource] fails with an InvalidParameterException
    whose message contains "The specified cluster is inactive. Specify an
    active cluster and try again.", ecs [ListTags] returns nil tags and a
    [NotFoundError] holding that error and the input; on every other
    failure it returns the empty tag set and the error itself. *)
Theorem ecs_ListTags_failure ctx conn identifier (h : History) :
  let input := ListTagsForResourceInput.mk (aws.String identifier) in
  let err := (ListTagsForResource_reply conn h ctx input).2 in
  let inactive :=
    tfawserr.ErrMessageContains err "InvalidParameterException"
      "The specified cluster is inactive. Specify an active cluster and try again." in
  let result := (ecs.ListTags ctx conn identifier h).1 in
  (inactive = true → result = (None, Some (NotFoundError err input))) ∧
  (inactive = false → ∀ e, err = Some e → result = (Some (∅ : gmap string string), Some e)).
Proof.
  intros input err inactive result. subst result. unfold ecs.ListTags.
  unfold mbind, M_bind, ListTagsForResourceWithContext. fold input.
  subst inactive err.
  destruct (ListTagsForResource_reply conn h ctx input) as [output err]. simpl.
  split.
  - intros ->. reflexivity.
  - intros -> e ->. reflexivity.
Qed.

Example ecs_ListTags_inactive_cluster :
  let err := Some (awserr_New "InvalidParameterException"
    "The specified cluster is inactive. Specify an active cluster and try again.") in
  (ecs.ListTags Background
     {| ListTagsForResource_reply := λ _ _ _, ({| ListTagsForResourceOutput.Tags := [] |}, err);
        UntagResource_reply := λ _ _ _, None;
        TagResource_reply := λ _ _ _, None |}
     "arn:aws:ecs:us-east-1:123456789012:cluster/c" []).1
  = (None, Some (NotFoundError err
       (ListTagsForResourceInput.mk (Some "arn:aws:ecs:us-east-1:123456789012:cluster/c")))).
Proof. reflexivity. Qed.

(** The content of the tag set elbv2 [KeyValueTags] makes of a tag list:
    a key maps to the value of the last tag of the list bearing it, a nil
    key reading as the empty key and a nil value as the empty value, and a
    key no tag bears is absent. *)
Lemma elbv2_KeyValueTags_content ctx (l : list Tag) (k : string) :
  elbv2.KeyValueTags ctx l !! k =
    (λ tag, aws.StringValue (Value tag))
      <$> last (filter (λ tag, aws.StringValue (Key tag) = k) l).
Proof.
  unfold elbv2.KeyValueTags, tags_gen.KeyValueTags, New.
  induction l as [|tag l IH] using rev_ind.
  - simpl. rewrite fmap_empty. apply lookup_empty.
  - rewrite fold_left_app. simpl. rewrite fmap_insert.
    rewrite filter_app, filter_cons, filter_nil.
    destruct (decide (aws.StringValue (Key tag) = k)) as [<-|Hne].
    + rewrite lookup_insert_eq, last_snoc. reflexivity.
    + rewrite lookup_insert_ne by exact Hne. rewrite app_nil_r. exact IH.
Qed.

(** C9: on a successful [DescribeTags] response, elbv2 [ListTags] returns
    the tag set of the first tag description: the set in which each key
    maps to the value of the last tag of that description bearing it (nil
    reading as empty) and which holds no other key.  It indexes the
    descriptions without a guard, so it returns exactly when there is at
    least one and panics when there is none. *)
Theorem elbv2_ListTags_first_description ctx conn identifier (h : History) output :
  DescribeTags_reply conn h ctx (DescribeTagsInput.mk (aws.StringSlice [identifier]))
    = (output, None) →
  let result := (elbv2.ListTags ctx conn identifier h).1 in
  (∀ d ds, DescribeTagsOutput.TagDescriptions output = d :: ds →
     ∃ tags : gmap string string,
       result = Returns (Some tags, None) ∧
       tags = elbv2.KeyValueTags ctx (TagDescription.Tags d) ∧
       ∀ k : string,
         tags !! k =
           (λ tag, aws.StringValue (Value tag))
             <$> last (filter (λ tag, aws.StringValue (Key tag) = k)
                         (TagDescription.Tags d))) ∧
  (result ≠ Panics ↔ DescribeTagsOutput.TagDescriptions output ≠ []) ∧
  (DescribeTagsOutput.TagDescriptions output = [] → result = Panics).
Proof.
  intros Hreply result. subst result. unfold elbv2.ListTags.
  unfold mbind, M_bind, DescribeTagsWithContext. rewrite Hreply.
  destruct (DescribeTagsOutput.TagDescriptions output) as [|d ds]; simpl.
  - split; [discriminate|]. split; [|reflexivity]. split; intros H; exfalso; apply H; reflexivity.
  - split.
    + intros d' ds' [= <- <-]. eexists. split; [reflexivity|]. split; [reflexivity|].
      intros k. apply elbv2_KeyValueTags_content.
    + split; [|discriminate]. split; discriminate.
Qed.

Lemma elbv2_ListTags_first_description_witness :
  ∃ tags : gmap string string,
    (elbv2.ListTags Background samples.elbv2_conn "arn" []).1
      = Returns (Some tags, None) ∧
    tags !! "Name" = Some "web" ∧
    tags !! "Environment" = Some "prod" ∧
    tags !! "Owner" = None.
Proof.
  destruct (proj1 (elbv2_ListTags_first_description Background samples.elbv2_conn
                     "arn" [] _ eq_refl) _ _ eq_refl)
    as (tags & Hresult & _ & Hcontent).
  exists tags. split; [exact Hresult|].
  split; [exact (Hcontent "Name")|].
  split; [exact (Hcontent "Environment") | exact (Hcontent "Owner")].
Defined.

(** ** The context given to the SDK *)

Section forwards_context.

Variable ctx : Context.

Lemma forwards_mret {A} (a : A) : forwards_context ctx (mret a).
Proof. intros h. exists []. split; [by rewrite app_nil_r | constructor]. Qed.

Lemma forwards_bind {A B} (m : M A) (f : A → M B) :
  forwards_context ctx m → (∀ a, forwards_context ctx (f a)) →
  forwards_context ctx (m ≫= f).
Proof.
  intros Hm Hf h. destruct (Hm h) as (made1 & Hh1 & Hctx1).
  unfold mbind, M_bind. destruct (m h) as [a h1]. simpl in Hh1. subst h1.
  destruct (Hf a (h ++ made1)%list) as (made2 & Hh2 & Hctx2).
  exists (made1 ++ made2)%list. split.
  - by rewrite Hh2, app_assoc.
  - by apply Forall_app.
Qed.

Lemma forwards_call {A} (reply : History → A) (c : Call) :
  Call_ctx c = ctx →
  forwards_context ctx (λ h, (reply h, (h ++ [c])%list)).
Proof. intros Hc h. exists [c]. split; [reflexivity | by constructor]. Qed.

End forwards_context.

(** One step through a helper: a return, a bind, an SDK call, or a branch. *)
Ltac forwards_step :=
  first
    [ apply forwards_mret
    | apply forwards_bind; [| intros ?]
    | apply forwards_call; reflexivity
    | match goal with
      | |- forwards_context _ (match ?x with _ => _ end) => destruct x
      | |- forwards_context _ (if ?b then _ else _) => destruct b
      | |- forwards_context _ (let '(_, _) := ?x in _) => destruct x
      end ].

Lemma forwards_listServices_loop (ctx : Context) (P : Type) (HasMorePages : P → bool)
    (NextPage_reply : Context → P → ecs.ListServicesOutput * error * P)
    (fuel : nat) (pages : P) (output : list string) :
  forwards_context ctx (ecs.listServices_loop P HasMorePages NextPage_reply fuel ctx pages output).
Proof.
  revert pages output. induction fuel as [|fuel IH]; intros pages output; simpl.
  - apply forwards_mret.
  - destruct (HasMorePages pages); [|apply forwards_mret].
    apply forwards_bind.
    + unfold ecs.NextPage. apply (forwards_call ctx (λ _, NextPage_reply ctx pages)).
      reflexivity.
    + intros [[page [e|]] pages']; [apply forwards_mret | apply IH].
Qed.

(** C10: every call that the tag helpers and [listServices] make through
    the SDK carries the context the caller passed: whatever the history
    before, the helper only appends calls, and each appended call holds
    [ctx] itself, not a context derived from it.  For [listServices] this
    covers every page fetched, for any number of iterations. *)
Theorem sdk_calls_receive_caller_context (ctx : Context) :
  (∀ conn identifier, forwards_context ctx (shield.ListTags ctx conn identifier)) ∧
  (∀ conn identifier, forwards_context ctx (ecs.ListTags ctx conn identifier)) ∧
  (∀ conn identifier, forwards_context ctx (elbv2.ListTags ctx conn identifier)) ∧
  (∀ IgnoreAWS conn identifier oldTagsMap newTagsMap,
     forwards_context ctx
       (shield.UpdateTags IgnoreAWS ctx conn identifier oldTagsMap newTagsMap)) ∧
  (∀ IgnoreAWS conn identifier oldTagsMap newTagsMap,
     forwards_context ctx
       (ecs.UpdateTags IgnoreAWS ctx conn identifier oldTagsMap newTagsMap)) ∧
  (∀ IgnoreAWS conn identifier oldTagsMap newTagsMap,
     forwards_context ctx
       (elbv2.UpdateTags IgnoreAWS ctx conn identifier oldTagsMap newTagsMap)) ∧
  (∀ (P : Type) (HasMorePages : P → bool) NextPage_reply (fuel : nat) (pages : P),
     forwards_context ctx (ecs.listServices P HasMorePages NextPage_reply fuel ctx pages)).
Proof.
  repeat split; intros.
  - unfold shield.ListTags, tags_gen.ListTags, ListTagsForResourceWithContext.
    repeat forwards_step.
  - unfold ecs.ListTags, ListTagsForResourceWithContext. repeat forwards_step.
  - unfold elbv2.ListTags, DescribeTagsWithContext. repeat forwards_step.
  - unfold shield.UpdateTags, tags_gen.UpdateTags, tags_gen.UpdateTags_updated,
      UntagResourceWithContext, TagResourceWithContext.
    repeat forwards_step.
  - unfold ecs.UpdateTags, tags_gen.UpdateTags, tags_gen.UpdateTags_updated,
      UntagResourceWithContext, TagResourceWithContext.
    repeat forwards_step.
  - unfold elbv2.UpdateTags, elbv2.UpdateTags_updated,
      RemoveTagsWithContext, AddTagsWithContext.
    repeat forwards_step.
  - apply forwards_listServices_loop.
Qed.

(** Three pages, then no more: [listServices] fetches each with the caller's
    context and returns the ARNs in page order. *)
Example listServices_three_pages :
  ecs.listServices nat (λ n, n <? 3)%nat
    (λ _ n, ({| ecs.ServiceArns := [String (ascii_of_nat (48 + n)) EmptyString] |}, None, S n))
    10 (WithCancel Background) 0%nat []
  = (Some (["0"; "1"; "2"], None),
     [ ListServices_NextPage (WithCancel Background);
       ListServices_NextPage (WithCancel Background);
       ListServices_NextPage (WithCancel Background) ]).
Proof. reflexivity. Qed.

(** * Further properties *)

(** ** The retry closures as a whole *)

Lemma ErrCodeEquals_no_awserr e code :
  no_awserr e → tfawserr.ErrCodeEquals e code = false.
Proof.
  destruct e as [e|]; simpl; [|reflexivity]. intros ->. reflexivity.
Qed.

Lemma ErrMessageContains_no_awserr e code message :
  no_awserr e → tfawserr.ErrMessageContains e code message = false.
Proof.
  destruct e as [e|]; simpl; [|reflexivity]. intros ->. reflexivity.
Qed.

Lemma ErrMessageContains_code e code message :
  tfawserr.ErrMessageContains e code message = true →
  tfawserr.ErrCodeEquals e code = true.
Proof.
  unfold tfawserr.ErrMessageContains, tfawserr.ErrCodeEquals.
  destruct e as [e|]; [|discriminate].
  destruct (As_awserr e) as [[c m]|]; [|discriminate].
  intros [H _]%andb_true_iff. exact H.
Qed.

Ltac unfold_handlers :=
  unfold handlers.apigatewayConn_Retry, handlers.apigatewayv2Conn_Retry,
    handlers.applicationautoscalingConn_Retry, handlers.appconfigConn_Retry,
    handlers.appsyncConn_Retry, handlers.chimeConn_Retry,
    handlers.cloudhsmv2Conn_Retry, handlers.cloudformationConn_Retry,
    handlers.dynamodbConn_Retry, handlers.fmsConn_Retry, handlers.kafkaConn_Retry,
    handlers.kinesisConn_Retry, handlers.lightsailConn_Retry,
    handlers.organizationsConn_Retry, handlers.s3Conn_Retry,
    handlers.securityhubConn_Retry, handlers.ssoadminConn_Retry,
    handlers.storagegatewayConn_Retry,
    conns.configserviceConn_Retry, conns.ec2Conn_Retry, conns.wafv2Conn_Retry,
    handlers.retry_on_message, handlers.retry_on_code;
  cbv zeta.

Ltac split_ifs :=
  repeat match goal with
         | |- context [if ?c then _ else _] => destruct c
         end.

Lemma retry_handlers_only_mark err :
  Forall (λ nh, only_marks nh.2) (handlers.retry_handlers err).
Proof.
  unfold handlers.retry_handlers.
  repeat apply Forall_cons_2; try apply Forall_nil_2;
    unfold only_marks; simpl; intros r; unfold_handlers; split_ifs;
    first [left; reflexivity | right; eexists; reflexivity].
Qed.

(** X1: none of the twenty-one retry closures touches anything but
    [Retryable]: the operation name, the error and the retry count of the
    request come out as they went in, whatever error the closures captured. *)
Theorem retry_handlers_write_Retryable_only err :
  Forall (λ nh, ∀ r,
            Operation_Name (nh.2 r) = Operation_Name r ∧
            Error (nh.2 r) = Error r ∧
            RetryCount (nh.2 r) = RetryCount r)
    (handlers.retry_handlers err).
Proof.
  eapply Forall_impl; [apply retry_handlers_only_mark|].
  intros [name f] Hf r. simpl in *.
  destruct (Hf r) as [->|[b ->]]; auto.
Qed.

(** X2: as [ConfigureProvider] installs them (the captured [err] is nil),
    the retry closures return a request unchanged when it did not fail or
    failed with an error that is not an [awserr.Error] and wraps none. *)
Theorem retry_handlers_leave_other_errors :
  Forall (λ nh, ∀ r, no_awserr (Error r) → nh.2 r = r)
    (handlers.retry_handlers None).
Proof.
  unfold handlers.retry_handlers.
  repeat apply Forall_cons_2; try apply Forall_nil_2;
    intros r Hr; simpl; unfold_handlers;
    repeat first
      [ rewrite (ErrMessageContains_no_awserr _ _ _ Hr)
      | rewrite (ErrCodeEquals_no_awserr _ _ Hr)
      | rewrite andb_false_r
      | progress simpl
      | match goal with
        | |- context [if ?c then _ else _] =>
            lazymatch c with
            | context [tfawserr.ErrMessageContains] => fail
            | context [tfawserr.ErrCodeEquals] => fail
            | _ => destruct c
            end
        end ];
    reflexivity.
Qed.

(** X3: apart from the closures of configservice and ec2, a retry closure
    either returns the request as it came or marks it retryable; it never
    marks a request not retryable. *)
Theorem retry_handlers_mark_retryable_only err :
  Forall (λ nh, nh.1 = "configservice" ∨ nh.1 = "ec2" ∨
                ∀ r, nh.2 r = r ∨ nh.2 r = set_Retryable true r)
    (handlers.retry_handlers err).
Proof.
  unfold handlers.retry_handlers.
  repeat apply Forall_cons_2; try apply Forall_nil_2; simpl;
    try (left; reflexivity); try (right; left; reflexivity);
    right; right; intros r; unfold_handlers; split_ifs;
    first [left; reflexivity | right; reflexivity].
Qed.

(** ** Single retry closures *)

Lemma Run_PushBack (f : Handler) (l : list Handler) (r : Request) :
  Run (PushBack f l) r = f (Run l r).
Proof. unfold Run, PushBack. rewrite fold_left_app. reflexivity. Qed.

Lemma Run_keeps_failure (l : list Handler) :
  Forall keeps_failure l → keeps_failure (Run l).
Proof.
  induction l as [|f l IH] using rev_ind; intros Hl r; [split; reflexivity|].
  apply Forall_app in Hl as [Hl Hf]. apply Forall_cons_1 in Hf as [Hf _].
  change (l ++ [f])%list with (PushBack f l). rewrite Run_PushBack.
  destruct (Hf (Run l r)) as [-> ->]. exact (IH Hl r).
Qed.

(** X4: on the ec2 client that [ConfigureProvider] returns, the closure
    runs after the handlers the client started with; when those leave the
    operation and the error alone, a RunInstances request that failed with
    InsufficientInstanceCapacity ends up not retryable whatever they
    decided. *)
Theorem ec2_RunInstances_overrides_earlier_handlers lib c client client' d (r : Request) :
  conns.ConfigureProvider lib c client = (Some client', d) →
  Forall keeps_failure (conns.sdkv1Conns_Retry lib) →
  Operation_Name r = "RunInstances" →
  tfawserr.ErrCodeEquals (Error r) "InsufficientInstanceCapacity" = true →
  Retryable (Run (conns.ec2Conn_Handlers_Retry client') r) = Some false.
Proof.
  intros Hcp Hdefaults Hop Hcode.
  destruct (ConfigureProvider_handlers _ _ _ _ _ Hcp) as (_ & -> & _).
  rewrite Run_PushBack.
  destruct (Run_keeps_failure _ Hdefaults r) as [Hop' Herr'].
  unfold conns.ec2Conn_Retry. rewrite Hop', Herr', Hop, Hcode. reflexivity.
Qed.

Lemma ec2_RunInstances_overrides_earlier_handlers_witness :
  ∃ client',
    conns.ConfigureProvider lib_retrying_by_default (samples.config [] []) samples.client
      = (Some client', []) ∧
    Retryable (Run (conns.sdkv1Conns_Retry lib_retrying_by_default)
                 (samples.failed "RunInstances" "InsufficientInstanceCapacity" "no capacity" 0))
      = Some true ∧
    Retryable (Run (conns.ec2Conn_Handlers_Retry client')
                 (samples.failed "RunInstances" "InsufficientInstanceCapacity" "no capacity" 0))
      = Some false.
Proof.
  eexists. split; [reflexivity|]. split; [reflexivity|].
  eapply (ec2_RunInstances_overrides_earlier_handlers lib_retrying_by_default
            (samples.config [] []) samples.client _ []).
  - reflexivity.
  - apply Forall_cons_2; [|apply Forall_nil_2]. intros r. split; reflexivity.
  - reflexivity.
  - reflexivity.
Defined.

(** X5: for the four organization conformance pack operations, a failure
    with the code OrganizationAccessDeniedException, whatever its message,
    is marked retryable exactly when the retry count is below 9 and not
    retryable from 9 on. *)
Theorem configservice_conformance_pack_retry (err : error) (r : Request) :
  Operation_Name r ∈
    ["DeleteOrganizationConformancePack"; "DescribeOrganizationConformancePacks";
     "DescribeOrganizationConformancePackStatuses"; "PutOrganizationConformancePack"] →
  tfawserr.ErrCodeEquals (Error r)
    configservice.ErrCodeOrganizationAccessDeniedException = true →
  (Retryable (conns.configserviceConn_Retry err r) = Some true ↔ RetryCount r < 9) ∧
  (9 ≤ RetryCount r → Retryable (conns.configserviceConn_Retry err r) = Some false).
Proof.
  intros Hop Hcode.
  assert (case_of (Operation_Name r)
            ["DeleteOrganizationConfigRule"; "DescribeOrganizationConfigRules";
             "DescribeOrganizationConfigRuleStatuses"; "PutOrganizationConfigRule"]
          = false) as Hrule.
  { apply not_true_is_false. rewrite case_of_elem_of. intros Hrule.
    rewrite !elem_of_cons, elem_of_nil in Hop, Hrule.
    destruct Hop as [Hop|[Hop|[Hop|[Hop|[]]]]]; rewrite Hop in Hrule;
      destruct Hrule as [H|[H|[H|[H|[]]]]]; discriminate H. }
  apply case_of_elem_of in Hop.
  unfold conns.configserviceConn_Retry. rewrite Hrule, Hop, Hcode. simpl negb. cbv iota.
  destruct (Z.ltb_spec (RetryCount r) 9) as [Hlt|Hge];
    rewrite Retryable_set_Retryable.
  - split; [split; [lia | reflexivity] | lia].
  - split; [split; [discriminate | lia] | reflexivity].
Qed.

Lemma configservice_conformance_pack_retry_witness :
  let r := samples.failed "PutOrganizationConformancePack"
             "OrganizationAccessDeniedException" "Access denied." 9 in
  (Retryable (conns.configserviceConn_Retry None r) = Some true ↔ RetryCount r < 9) ∧
  (9 ≤ RetryCount r → Retryable (conns.configserviceConn_Retry None r) = Some false).
Proof.
  apply (configservice_conformance_pack_retry None
           (samples.failed "PutOrganizationConformancePack"
              "OrganizationAccessDeniedException" "Access denied." 9)).
  - apply case_of_elem_of. reflexivity.
  - reflexivity.
Defined.

(** X6: the ec2 closure leaves a request marked not retryable only if it
    came so, or if it is a RunInstances request that failed with
    InsufficientInstanceCapacity. *)
Theorem ec2_not_retryable_only_for_RunInstances (r : Request) :
  Retryable (conns.ec2Conn_Retry r) = Some false →
  Retryable r = Some false ∨
  (Operation_Name r = "RunInstances" ∧
   tfawserr.ErrCodeEquals (Error r) "InsufficientInstanceCapacity" = true).
Proof.
  unfold conns.ec2Conn_Retry. cbv beta zeta.
  repeat match goal with
         | |- context [if ?c then _ else _] => destruct c eqn:?
         end;
    simpl; intros H; try discriminate H; try (left; exact H).
  right. split; [|first [assumption | reflexivity]].
  apply list_elem_of_singleton, case_of_elem_of. assumption.
Qed.

Lemma ec2_not_retryable_only_for_RunInstances_witness :
  let r := samples.failed "RunInstances" "InsufficientInstanceCapacity" "no capacity" 0 in
  Retryable r = Some false ∨
  (Operation_Name r = "RunInstances" ∧
   tfawserr.ErrCodeEquals (Error r) "InsufficientInstanceCapacity" = true).
Proof.
  apply (ec2_not_retryable_only_for_RunInstances
           (samples.failed "RunInstances" "InsufficientInstanceCapacity" "no capacity" 0)).
  reflexivity.
Defined.

(** X7: the configservice closure leaves a request marked not retryable
    only if it came so, or if it failed with OrganizationAccessDeniedException
    and has been retried at least 9 times. *)
Theorem configservice_not_retryable_only_after_nine_retries (err : error) (r : Request) :
  Retryable (conns.configserviceConn_Retry err r) = Some false →
  Retryable r = Some false ∨
  (9 ≤ RetryCount r ∧
   tfawserr.ErrCodeEquals (Error r)
     configservice.ErrCodeOrganizationAccessDeniedException = true).
Proof.
  unfold conns.configserviceConn_Retry.
  repeat match goal with
         | |- context [if ?c then _ else _] => destruct c eqn:?
         end;
    simpl; intros H; try discriminate H; try (left; exact H);
    right; (split; [by apply Z.ltb_ge|]);
    repeat match goal with
           | H : negb _ = false |- _ => apply negb_false_iff in H
           end;
    eauto using ErrMessageContains_code.
Qed.

Lemma configservice_not_retryable_only_after_nine_retries_witness :
  let r := samples.failed "DescribeOrganizationConfigRules"
             "OrganizationAccessDeniedException"
             "This action can be only made by AWS Organization's master account." 12 in
  Retryable r = Some false ∨
  (9 ≤ RetryCount r ∧
   tfawserr.ErrCodeEquals (Error r)
     configservice.ErrCodeOrganizationAccessDeniedException = true).
Proof.
  apply (configservice_not_retryable_only_after_nine_retries None
           (samples.failed "DescribeOrganizationConfigRules"
              "OrganizationAccessDeniedException"
              "This action can be only made by AWS Organization's master account." 12)).
  reflexivity.
Defined.

(** ** [ConfigureProvider], further *)

Lemma range_matches_elem_of accountID ids :
  conns.range_matches accountID ids = true ↔ accountID ∈ ids.
Proof.
  induction ids as [|id ids IH]; simpl.
  - split; [discriminate | intros H; inversion H].
  - rewrite elem_of_cons. destruct (String.eqb_spec accountID id) as [->|Hne].
    + split; auto.
    + rewrite IH. split; [auto | intros [?|?]; [contradiction | assumption]].
Qed.

Lemma nonempty_spec ids : conns.nonempty ids = true ↔ ids ≠ [].
Proof.
  unfold conns.nonempty. destruct ids; simpl.
  - split; [discriminate | intros H; contradiction].
  - split; [discriminate | reflexivity].
Qed.

(** X8: [ConfigureProvider] returns either a client and no diagnostic, or
    no client and exactly one diagnostic of severity error; never a client
    together with a diagnostic, never nothing at all. *)
Theorem ConfigureProvider_client_or_one_error lib c client :
  (∃ client', conns.ConfigureProvider lib c client = (Some client', [])) ∨
  (∃ summary,
     conns.ConfigureProvider lib c client =
       (None, [ {| diag.Severity_of := diag.Error; diag.Summary := summary |} ])).
Proof.
  unfold conns.ConfigureProvider.
  destruct (conns.GetAwsConfig lib c) as [region [e|]]; [right; eexists; reflexivity|].
  destruct (if negb _ then _ else _) as [e|]; [right; eexists; reflexivity|].
  destruct (conns.GetSession lib c) as [e|]; [right; eexists; reflexivity|].
  destruct (conns.GetAwsAccountIDAndPartition lib c) as [[accountID partition] [e|]];
    [right; eexists; reflexivity|].
  destruct (_ && _); [right; eexists; reflexivity|].
  destruct (_ && _); [right; eexists; reflexivity|].
  left. eexists. reflexivity.
Qed.

(** X9: when the library calls succeed and no account is forbidden, the
    account is refused with "AWS account ID not allowed" exactly when
    [AllowedAccountIds] is non-empty and does not contain it; with an empty
    allow-list or an allowed account a client is returned. *)
Theorem ConfigureProvider_allow_list lib c client region accountID partition :
  conns.GetAwsConfig lib c = (region, None) →
  (if negb (conns.SkipRegionValidation c) then conns.ValidateRegion lib region else None) = None →
  conns.GetSession lib c = None →
  conns.GetAwsAccountIDAndPartition lib c = (accountID, partition, None) →
  conns.ForbiddenAccountIds c = [] →
  (conns.ConfigureProvider lib c client =
     (None, diag.Errorf "AWS account ID not allowed: " accountID)
   ↔ conns.AllowedAccountIds c ≠ [] ∧ accountID ∉ conns.AllowedAccountIds c) ∧
  (conns.AllowedAccountIds c = [] ∨ accountID ∈ conns.AllowedAccountIds c →
   ∃ client', conns.ConfigureProvider lib c client = (Some client', [])).
Proof.
  intros Hcfg Hregion Hsess Hacct Hforbidden.
  pose proof (ConfigureProvider_account_filter lib c client region accountID partition
                Hcfg Hregion Hsess Hacct) as Hfilter.
  simpl in Hfilter. rewrite Hforbidden in Hfilter. simpl in Hfilter.
  destruct (conns.nonempty (conns.AllowedAccountIds c)) eqn:Hne;
    destruct (conns.range_matches accountID (conns.AllowedAccountIds c)) eqn:Hin;
    simpl in Hfilter.
  - apply range_matches_elem_of in Hin. destruct Hfilter as [client' Hcp].
    split; [|eauto]. rewrite Hcp. split; [discriminate | intros [_ Hnot]; contradiction].
  - apply nonempty_spec in Hne.
    assert (accountID ∉ conns.AllowedAccountIds c) as Hnot
      by (rewrite <- range_matches_elem_of, Hin; discriminate).
    split; [split; [auto | intros _; exact Hfilter]|].
    intros [Hempty|Hmem]; contradiction.
  - apply range_matches_elem_of in Hin. destruct Hfilter as [client' Hcp].
    split; [|eauto]. rewrite Hcp. split; [discriminate | intros [_ Hnot]; contradiction].
  - destruct Hfilter as [client' Hcp].
    assert (conns.AllowedAccountIds c = []) as Hempty.
    { destruct (conns.AllowedAccountIds c); [reflexivity | discriminate Hne]. }
    split; [|eauto]. rewrite Hcp. split; [discriminate | intros [Hnot _]; contradiction].
Qed.

Lemma ConfigureProvider_allow_list_witness :
  conns.ConfigureProvider samples.lib (samples.config ["111111111111"; "222222222222"] [])
      samples.client
    = (None, diag.Errorf "AWS account ID not allowed: " "123456789012")
  ↔ ["111111111111"; "222222222222"] ≠ [] ∧
    "123456789012" ∉ ["111111111111"; "222222222222"].
Proof.
  exact (proj1 (ConfigureProvider_allow_list samples.lib
                  (samples.config ["111111111111"; "222222222222"] []) samples.client
                  "us-east-1" "123456789012" "aws"
                  eq_refl eq_refl eq_refl eq_refl eq_refl)).
Defined.

(** X10: with [SkipRegionValidation] set, the outcome of
    [ConfigureProvider] does not depend on what [awsbase.ValidateRegion]
    would answer. *)
Theorem ConfigureProvider_skips_region_validation lib c client
    (validate : string → error) :
  conns.SkipRegionValidation c = true →
  conns.ConfigureProvider
    {| conns.GetAwsConfig := conns.GetAwsConfig lib;
       conns.ValidateRegion := validate;
       conns.GetSession := conns.GetSession lib;
       conns.GetAwsAccountIDAndPartition := conns.GetAwsAccountIDAndPartition lib;
       conns.PartitionForRegion := conns.PartitionForRegion lib;
       conns.sdkv1Conns_Retry := conns.sdkv1Conns_Retry lib |} c client
  = conns.ConfigureProvider lib c client.
Proof.
  intros Hskip. unfold conns.ConfigureProvider. simpl. rewrite Hskip. reflexivity.
Qed.

Lemma ConfigureProvider_skips_region_validation_witness :
  let c := {| conns.AllowedAccountIds := [];
              conns.ForbiddenAccountIds := [];
              conns.Region := "mars-north-1";
              conns.SkipRegionValidation := true;
              conns.TerraformVersion := "1.5.0" |} in
  conns.ConfigureProvider
    {| conns.GetAwsConfig := conns.GetAwsConfig samples.lib;
       conns.ValidateRegion := λ region, Some (errors_New "invalid AWS Region");
       conns.GetSession := conns.GetSession samples.lib;
       conns.GetAwsAccountIDAndPartition := conns.GetAwsAccountIDAndPartition samples.lib;
       conns.PartitionForRegion := conns.PartitionForRegion samples.lib;
       conns.sdkv1Conns_Retry := conns.sdkv1Conns_Retry samples.lib |} c samples.client
  = conns.ConfigureProvider samples.lib c samples.client.
Proof.
  intros c.
  apply (ConfigureProvider_skips_region_validation samples.lib c samples.client).
  reflexivity.
Defined.

(** X11: a client that [ConfigureProvider] returns holds the account ID
    and partition that were resolved and the region of the resolved AWS
    configuration, with the DNS suffix of the region's partition or
    "amazonaws.com"; its region passed validation unless validation was
    skipped, and its account is in [AllowedAccountIds] when that list is
    not empty. *)
Theorem ConfigureProvider_client lib c client client' d :
  conns.ConfigureProvider lib c client = (Some client', d) →
  ∃ region accountID partition,
    conns.GetAwsConfig lib c = (region, None) ∧
    conns.GetAwsAccountIDAndPartition lib c = (accountID, partition, None) ∧
    (conns.SkipRegionValidation c = false → conns.ValidateRegion lib region = None) ∧
    (conns.AllowedAccountIds c = [] ∨ accountID ∈ conns.AllowedAccountIds c) ∧
    conns.AccountID client' = accountID ∧
    conns.Partition client' = partition ∧
    conns.client_Region client' = region ∧
    conns.DNSSuffix client' = default "amazonaws.com" (conns.PartitionForRegion lib region).
Proof.
  unfold conns.ConfigureProvider.
  destruct (conns.GetAwsConfig lib c) as [region [e|]]; [discriminate|].
  destruct (if negb _ then _ else _) as [e|] eqn:Hvalid; [discriminate|].
  destruct (conns.GetSession lib c) as [e|]; [discriminate|].
  destruct (conns.GetAwsAccountIDAndPartition lib c) as [[accountID partition] [e|]];
    [discriminate|].
  destruct (_ && _); [discriminate|].
  destruct (conns.nonempty _ && negb _) eqn:Hallowed; [discriminate|].
  intros [= <- <-]. exists region, accountID, partition. simpl in *.
  repeat split.
  - intros Hskip. rewrite Hskip in Hvalid. exact Hvalid.
  - apply andb_false_iff in Hallowed as [Hempty|Hin].
    + left. apply not_true_iff_false in Hempty. rewrite nonempty_spec in Hempty.
      destruct (conns.AllowedAccountIds c); [reflexivity|].
      exfalso. apply Hempty. intros H. discriminate H.
    + right. apply negb_false_iff, range_matches_elem_of in Hin. exact Hin.
Qed.

Lemma ConfigureProvider_client_witness :
  ∃ client' region accountID,
    conns.ConfigureProvider samples.lib (samples.config ["123456789012"] []) samples.client
      = (Some client', []) ∧
    conns.GetAwsConfig samples.lib (samples.config ["123456789012"] []) = (region, None) ∧
    conns.AccountID client' = accountID ∧ accountID ∈ ["123456789012"].
Proof.
  destruct (ConfigureProvider_client samples.lib (samples.config ["123456789012"] [])
              samples.client _ [] eq_refl)
    as (region & accountID & partition & Hcfg & _ & _ & Hallowed & Hid & _).
  eexists _, region, accountID. split; [reflexivity|].
  split; [exact Hcfg|]. split; [exact Hid|].
  destruct Hallowed as [Hempty|Hin]; [discriminate Hempty | exact Hin].
Defined.

(** ** Tag lists and tag sets, further *)

Lemma KeyValueTags_nil ctx : tags_gen.KeyValueTags ctx [] = ∅.
Proof. unfold tags_gen.KeyValueTags, New. simpl. apply fmap_empty. Qed.

Lemma KeyValueTags_snoc ctx (l : list Tag) (tag : Tag) :
  tags_gen.KeyValueTags ctx (l ++ [tag]) =
    <[aws.StringValue (Key tag) := aws.StringValue (Value tag)]>
      (tags_gen.KeyValueTags ctx l).
Proof.
  unfold tags_gen.KeyValueTags, New. rewrite fold_left_app. simpl.
  apply fmap_insert.
Qed.

(** X12: in the tag set [KeyValueTags] makes of a tag list, a key maps to
    the value of the last tag of the list bearing that key, a nil key
    reading as the empty key and a nil value as the empty value; a key no
    tag bears is absent. *)
Theorem KeyValueTags_lookup ctx (l : list Tag) (k : string) :
  tags_gen.KeyValueTags ctx l !! k =
    (λ tag, aws.StringValue (Value tag))
      <$> last (filter (λ tag, aws.StringValue (Key tag) = k) l).
Proof.
  induction l as [|tag l IH] using rev_ind.
  - rewrite KeyValueTags_nil. apply lookup_empty.
  - rewrite KeyValueTags_snoc, filter_app, filter_cons, filter_nil.
    destruct (decide (aws.StringValue (Key tag) = k)) as [<-|Hne].
    + rewrite lookup_insert_eq, last_snoc. reflexivity.
    + rewrite lookup_insert_ne by exact Hne. rewrite app_nil_r. exact IH.
Qed.

(** X13: [Tags] lists one tag per entry of the tag set: as many tags as
    entries, no key twice, and each tag holds a non-nil key and value that
    are an entry of the tag set, and conversely. *)
Theorem Tags_entries (t : gmap string string) :
  length (tags_gen.Tags t) = size t ∧
  NoDup (Key <$> tags_gen.Tags t) ∧
  (∀ tag, tag ∈ tags_gen.Tags t ↔
          ∃ k v, tag = {| Key := Some k; Value := Some v |} ∧ t !! k = Some v).
Proof.
  unfold tags_gen.Tags, Map. split; [|split].
  - rewrite length_fmap. apply length_map_to_list.
  - rewrite <- list_fmap_compose.
    rewrite (list_fmap_ext _ (Some ∘ fst) (map_to_list t)) by (by intros _ [] _).
    rewrite list_fmap_compose. apply NoDup_fmap_2; [apply _|].
    apply NoDup_fst_map_to_list.
  - intros tag. rewrite list_elem_of_fmap. split.
    + intros ([k v] & -> & Hkv). apply elem_of_map_to_list in Hkv. eauto.
    + intros (k & v & -> & Hkv). exists (k, v). split; [reflexivity|].
      by apply elem_of_map_to_list.
Qed.

Lemma Tag_of_entry (tag : Tag) :
  is_Some (Key tag) → is_Some (Value tag) →
  {| Key := aws.String (aws.StringValue (Key tag));
     Value := aws.String (aws.StringValue (Value tag)) |} = tag.
Proof. destruct tag as [k v]. simpl. intros [k' ->] [v' ->]. reflexivity. Qed.

(** X14: a tag list whose keys and values are non-nil and whose keys are
    distinct comes back from [KeyValueTags] and [Tags] as a permutation of
    itself. *)
Theorem Tags_KeyValueTags_roundtrip ctx (l : list Tag) :
  Forall (λ tag, is_Some (Key tag) ∧ is_Some (Value tag)) l →
  NoDup (Key <$> l) →
  tags_gen.Tags (tags_gen.KeyValueTags ctx l) ≡ₚ l.
Proof.
  intros Hsome Hkeys.
  set (entry := λ tag : Tag, (aws.StringValue (Key tag), aws.StringValue (Value tag))).
  assert (tags_gen.KeyValueTags ctx l = list_to_map (entry <$> reverse l)) as ->.
  { unfold tags_gen.KeyValueTags, New. rewrite KeyValueTags_fold, <- list_to_map_fmap.
    rewrite <- list_fmap_compose. reflexivity. }
  assert (NoDup (entry <$> reverse l).*1) as Hnodup.
  { rewrite <- list_fmap_compose.
    rewrite (list_fmap_ext _ (aws.StringValue ∘ Key) (reverse l)) by done.
    rewrite list_fmap_compose, !fmap_reverse, reverse_Permutation.
    apply NoDup_fmap_2_strong; [|exact Hkeys].
    intros x y Hx Hy Hxy.
    apply list_elem_of_fmap in Hx as (tx & -> & Hx), Hy as (ty & -> & Hy).
    rewrite Forall_forall in Hsome.
    destruct (Hsome tx Hx) as [[kx Hkx] _], (Hsome ty Hy) as [[ky Hky] _].
    rewrite Hkx, Hky in *. simpl in Hxy. congruence. }
  unfold tags_gen.Tags, Map. rewrite (map_to_list_to_map _ Hnodup).
  rewrite <- list_fmap_compose.
  rewrite <- (reverse_Permutation l) at 2.
  rewrite <- (list_fmap_id (reverse l)) at 2.
  rewrite Forall_forall in Hsome.
  erewrite (list_fmap_ext _ id (reverse l)); [reflexivity|].
  intros i tag Htag. simpl. apply list_elem_of_lookup_2 in Htag.
  rewrite elem_of_reverse in Htag.
  destruct (Hsome tag Htag). by apply Tag_of_entry.
Qed.

Lemma Tags_KeyValueTags_roundtrip_witness :
  tags_gen.Tags (tags_gen.KeyValueTags Background samples.tag_list) ≡ₚ samples.tag_list.
Proof.
  apply (Tags_KeyValueTags_roundtrip Background samples.tag_list).
  - repeat apply Forall_cons_2; try apply Forall_nil_2; split; eexists; reflexivity.
  - simpl. apply NoDup_cons_2; [|apply NoDup_singleton].
    rewrite list_elem_of_singleton. discriminate.
Defined.

(** ** What [UpdateTags] does to the tags of the resource *)

Lemma Keys_elem_of (t : gmap string string) (k : string) :
  k ∈ Keys t ↔ is_Some (t !! k).
Proof.
  unfold Keys. rewrite list_elem_of_fmap. split.
  - intros ([k' v] & -> & Hkv). apply elem_of_map_to_list in Hkv. eauto.
  - intros [v Hv]. exists (k, v). split; [reflexivity|]. by apply elem_of_map_to_list.
Qed.

Lemma untag_keys_lookup (ks : list string) (m : gmap string string) (k : string) :
  untag_keys (aws.StringSlice ks) m !! k = if decide (k ∈ ks) then None else m !! k.
Proof.
  revert m. induction ks as [|a ks IH]; intros m.
  - case_decide as Hin; [by apply elem_of_nil in Hin | reflexivity].
  - unfold untag_keys in *. simpl. rewrite IH.
    destruct (decide (k ∈ ks)) as [Hin|Hnin].
    + rewrite decide_True by (by right). reflexivity.
    + destruct (decide (k = a)) as [->|Hne].
      * rewrite decide_True by (by left). apply lookup_delete_eq.
      * rewrite decide_False by (rewrite elem_of_cons; tauto).
        apply lookup_delete_ne. congruence.
Qed.

Lemma write_tags_snoc (l : list Tag) (tag : Tag) (m : gmap string string) :
  write_tags (l ++ [tag]) m =
    <[aws.StringValue (Key tag) := aws.StringValue (Value tag)]> (write_tags l m).
Proof. unfold write_tags. rewrite fold_left_app. reflexivity. Qed.

Lemma write_tags_union (l : list Tag) (m : gmap string string) :
  write_tags l m =
    list_to_map
      (reverse ((λ tag, (aws.StringValue (Key tag), aws.StringValue (Value tag))) <$> l))
    ∪ m.
Proof.
  induction l as [|tag l IH] using rev_ind.
  - simpl. by rewrite (left_id_L ∅ (∪)).
  - rewrite write_tags_snoc, IH, fmap_app, reverse_app. simpl.
    by rewrite insert_union_l.
Qed.

Lemma write_tags_Tags (t m : gmap string string) :
  write_tags (tags_gen.Tags t) m = t ∪ m.
Proof.
  rewrite write_tags_union. f_equal. unfold tags_gen.Tags, Map.
  rewrite <- list_fmap_compose.
  rewrite (list_fmap_ext _ id (map_to_list t)) by (by intros _ [] _).
  rewrite list_fmap_id.
  rewrite (list_to_map_proper (reverse (map_to_list t)) (map_to_list t)).
  - apply list_to_map_to_list.
  - rewrite fmap_reverse, reverse_Permutation. apply NoDup_fst_map_to_list.
  - apply reverse_Permutation.
Qed.

(** Removing the removed keys from the old tags and then writing the
    updated tags gives the new tags. *)
Lemma Removed_Updated_reconcile (oldTags newTags : gmap string string) :
  Updated oldTags newTags
    ∪ untag_keys (aws.StringSlice (Keys (Removed oldTags newTags))) oldTags
  = newTags.
Proof.
  apply map_eq. intros k. rewrite lookup_union, untag_keys_lookup.
  unfold Updated, Removed.
  destruct (newTags !! k) as [v|] eqn:Hnew.
  - destruct (decide (oldTags !! k = Some v)) as [Hold|Hold].
    + rewrite (proj2 (map_lookup_filter_None _ _ _)); [|right; intros v' Hv'; simpl; congruence].
      rewrite decide_False.
      * rewrite Hold. reflexivity.
      * rewrite Keys_elem_of. intros [v' Hv'].
        apply map_lookup_filter_Some in Hv' as [_ Hv']. simpl in Hv'. congruence.
    + rewrite (proj2 (map_lookup_filter_Some _ _ _ v)); [|split; [exact Hnew | exact Hold]].
      by destruct (if decide _ then _ else _).
  - rewrite (proj2 (map_lookup_filter_None _ _ _)); [|left; exact Hnew].
    rewrite (left_id_L None (∪)).
    destruct (oldTags !! k) as [v|] eqn:Hold.
    + rewrite decide_True; [reflexivity|]. rewrite Keys_elem_of. exists v.
      apply map_lookup_filter_Some. split; [exact Hold | exact Hnew].
    + by destruct (decide _).
Qed.

Lemma Keys_empty : Keys (∅ : gmap string string) = [].
Proof. unfold Keys. by rewrite map_to_list_empty. Qed.

Lemma Tags_empty : tags_gen.Tags ∅ = [].
Proof. unfold tags_gen.Tags, Map. by rewrite map_to_list_empty. Qed.

(** X15: when the service carries out every call and [IgnoreAWS] drops
    nothing from the removed and the updated tags, [UpdateTags] returns nil
    and the calls it made turn the old tag set into the new one. *)
Theorem UpdateTags_converges IgnoreAWS ctx conn identifier oldTagsMap newTagsMap
    (h : History) :
  always_succeeds conn →
  IgnoreAWS (Removed (New ctx oldTagsMap) (New ctx newTagsMap))
    = Removed (New ctx oldTagsMap) (New ctx newTagsMap) →
  IgnoreAWS (Updated (New ctx oldTagsMap) (New ctx newTagsMap))
    = Updated (New ctx oldTagsMap) (New ctx newTagsMap) →
  ∃ made : list Call,
    tags_gen.UpdateTags IgnoreAWS ctx conn identifier oldTagsMap newTagsMap h
      = (None, (h ++ made)%list) ∧
    apply_calls made (New ctx oldTagsMap) = New ctx newTagsMap.
Proof.
  intros [Huntag Htag] HR HU.
  pose proof (Removed_Updated_reconcile (New ctx oldTagsMap) (New ctx newTagsMap)) as Hrec.
  rewrite UpdateTags_run. cbv zeta. rewrite Huntag, !UpdateTags_updated_run, !Htag, HR, HU.
  simpl.
  case_bool_decide as Hrem; case_bool_decide as Hupd.
  - eexists [_; _]. split; [by rewrite <- app_assoc|].
    unfold apply_calls. simpl. rewrite write_tags_Tags. exact Hrec.
  - eexists [_]. split; [reflexivity|].
    unfold apply_calls. simpl. rewrite Hupd, (left_id_L ∅ (∪)) in Hrec. exact Hrec.
  - eexists [_]. split; [reflexivity|].
    unfold apply_calls. simpl. rewrite write_tags_Tags.
    rewrite Hrem, Keys_empty in Hrec. exact Hrec.
  - exists []. split; [by rewrite app_nil_r|].
    rewrite Hrem, Hupd, Keys_empty, (left_id_L ∅ (∪)) in Hrec. exact Hrec.
Qed.

Lemma UpdateTags_converges_witness :
  ∃ made : list Call,
    tags_gen.UpdateTags id (WithCancel Background) succeeding_conn "arn"
      (any_map_string (<["a" := "1"]> (<["b" := "2"]> ∅)))
      (any_map_string (<["b" := "3"]> (<["c" := "4"]> ∅))) []
      = (None, ([] ++ made)%list) ∧
    apply_calls made (<["a" := "1"]> (<["b" := "2"]> ∅))
      = <["b" := "3"]> (<["c" := "4"]> ∅).
Proof.
  exact (UpdateTags_converges id (WithCancel Background) succeeding_conn "arn"
           (any_map_string (<["a" := "1"]> (<["b" := "2"]> ∅)))
           (any_map_string (<["b" := "3"]> (<["c" := "4"]> ∅))) []
           (conj (λ _ _ _, eq_refl) (λ _ _ _, eq_refl)) eq_refl eq_refl).
Defined.

(** X16: [UpdateTags] is not atomic: when tags are to be removed and
    written, the untag call succeeds and the tag call fails, the untag call
    has been made and stays made, and the result wraps the tag error under
    "tagging resource (identifier)". *)
Theorem UpdateTags_tag_failure_after_untag IgnoreAWS ctx conn identifier
    oldTagsMap newTagsMap (h : History) (e : err) :
  let oldTags := New ctx oldTagsMap in
  let newTags := New ctx newTagsMap in
  let untag := UntagResource ctx (UntagResourceInput.mk (aws.String identifier)
                 (aws.StringSlice (Keys (IgnoreAWS (Removed oldTags newTags))))) in
  let tag_input := TagResourceInput.mk (aws.String identifier)
                     (tags_gen.Tags (IgnoreAWS (Updated oldTags newTags))) in
  Removed oldTags newTags ≠ ∅ →
  Updated oldTags newTags ≠ ∅ →
  UntagResource_reply conn h ctx (UntagResourceInput.mk (aws.String identifier)
    (aws.StringSlice (Keys (IgnoreAWS (Removed oldTags newTags))))) = None →
  TagResource_reply conn (h ++ [untag])%list ctx tag_input = Some e →
  tags_gen.UpdateTags IgnoreAWS ctx conn identifier oldTagsMap newTagsMap h
    = (Some (fmt_Errorf ("tagging resource (" ++ identifier ++ ")") e),
       (h ++ [untag; TagResource ctx tag_input])%list).
Proof.
  intros oldTags newTags untag tag_input Hrem Hupd Huntag Htag.
  rewrite UpdateTags_run. cbv zeta. fold oldTags newTags.
  rewrite bool_decide_true by exact Hrem. rewrite Huntag.
  rewrite UpdateTags_updated_run. cbv zeta.
  rewrite bool_decide_true by exact Hupd.
  fold untag tag_input. rewrite Htag. simpl. by rewrite <- app_assoc.
Qed.

Lemma UpdateTags_tag_failure_after_untag_witness :
  ∃ untag tag,
    tags_gen.UpdateTags id Background failing_tag_conn "arn"
      (any_map_string (<["a" := "1"]> ∅)) (any_map_string (<["c" := "4"]> ∅)) []
    = (Some (fmt_Errorf "tagging resource (arn)" (awserr_New "TooManyTagsException" "limit")),
       [UntagResource Background untag; TagResource Background tag]).
Proof.
  do 2 eexists.
  apply (UpdateTags_tag_failure_after_untag id Background failing_tag_conn "arn"
           (any_map_string (<["a" := "1"]> ∅)) (any_map_string (<["c" := "4"]> ∅)) []).
  - apply (bool_decide_unpack _). vm_compute. exact I.
  - apply (bool_decide_unpack _). vm_compute. exact I.
  - reflexivity.
  - reflexivity.
Defined.

(** ** elbv2 [UpdateTags] *)

Lemma elbv2_UpdateTags_updated_run IgnoreAWS ctx conn identifier oldTags newTags h :
  let input := AddTagsInput.mk (aws.StringSlice [identifier])
                 (tags_gen.Tags (IgnoreAWS (Updated oldTags newTags))) in
  elbv2.UpdateTags_updated IgnoreAWS ctx conn identifier oldTags newTags h =
    if bool_decide (Updated oldTags newTags ≠ ∅)
    then (fmt_Errorf ("tagging resource (" ++ identifier ++ ")")
            <$> AddTags_reply conn h ctx input,
          h ++ [AddTags ctx input])%list
    else (None, h).
Proof.
  intros input. unfold elbv2.UpdateTags_updated. rewrite len_pos.
  case_bool_decide; [|reflexivity].
  unfold mbind, M_bind, AddTagsWithContext, elbv2.Tags. fold input.
  destruct (AddTags_reply conn h ctx input); reflexivity.
Qed.

Lemma elbv2_UpdateTags_run IgnoreAWS ctx conn identifier oldTagsMap newTagsMap h :
  let oldTags := New ctx oldTagsMap in
  let newTags := New ctx newTagsMap in
  let input := RemoveTagsInput.mk (aws.StringSlice [identifier])
                 (aws.StringSlice (Keys (IgnoreAWS (Removed oldTags newTags)))) in
  elbv2.UpdateTags IgnoreAWS ctx conn identifier oldTagsMap newTagsMap h =
    if bool_decide (Removed oldTags newTags ≠ ∅)
    then
      match RemoveTags_reply conn h ctx input with
      | Some e =>
          (Some (fmt_Errorf ("untagging resource (" ++ identifier ++ ")") e),
           (h ++ [RemoveTags ctx input])%list)
      | None =>
          elbv2.UpdateTags_updated IgnoreAWS ctx conn identifier oldTags newTags
            (h ++ [RemoveTags ctx input])%list
      end
    else elbv2.UpdateTags_updated IgnoreAWS ctx conn identifier oldTags newTags h.
Proof.
  intros oldTags newTags input. unfold elbv2.UpdateTags.
  fold oldTags newTags. rewrite len_pos.
  case_bool_decide; [|reflexivity].
  unfold mbind, M_bind, RemoveTagsWithContext. fold input.
  destruct (RemoveTags_reply conn h ctx input); reflexivity.
Qed.

(** X17: the same for elbv2 [UpdateTags], which removes with [RemoveTags]
    and writes with [AddTags]: when every call is carried out and
    [IgnoreAWS] drops nothing, it returns nil and its calls turn the old
    tag set into the new one. *)
Theorem elbv2_UpdateTags_converges IgnoreAWS ctx conn identifier oldTagsMap newTagsMap
    (h : History) :
  elbv2_always_succeeds conn →
  IgnoreAWS (Removed (New ctx oldTagsMap) (New ctx newTagsMap))
    = Removed (New ctx oldTagsMap) (New ctx newTagsMap) →
  IgnoreAWS (Updated (New ctx oldTagsMap) (New ctx newTagsMap))
    = Updated (New ctx oldTagsMap) (New ctx newTagsMap) →
  ∃ made : list Call,
    elbv2.UpdateTags IgnoreAWS ctx conn identifier oldTagsMap newTagsMap h
      = (None, (h ++ made)%list) ∧
    apply_calls made (New ctx oldTagsMap) = New ctx newTagsMap.
Proof.
  intros [Hremove Hadd] HR HU.
  pose proof (Removed_Updated_reconcile (New ctx oldTagsMap) (New ctx newTagsMap)) as Hrec.
  rewrite elbv2_UpdateTags_run. cbv zeta.
  rewrite Hremove, !elbv2_UpdateTags_updated_run, !Hadd, HR, HU. simpl.
  case_bool_decide as Hrem; case_bool_decide as Hupd.
  - eexists [_; _]. split; [by rewrite <- app_assoc|].
    unfold apply_calls. simpl. rewrite write_tags_Tags. exact Hrec.
  - eexists [_]. split; [reflexivity|].
    unfold apply_calls. simpl. rewrite Hupd, (left_id_L ∅ (∪)) in Hrec. exact Hrec.
  - eexists [_]. split; [reflexivity|].
    unfold apply_calls. simpl. rewrite write_tags_Tags.
    rewrite Hrem, Keys_empty in Hrec. exact Hrec.
  - exists []. split; [by rewrite app_nil_r|].
    rewrite Hrem, Hupd, Keys_empty, (left_id_L ∅ (∪)) in Hrec. exact Hrec.
Qed.

Lemma elbv2_UpdateTags_converges_witness :
  ∃ made : list Call,
    elbv2.UpdateTags id Background elbv2_succeeding_conn "arn"
      (any_map_string (<["a" := "1"]> (<["b" := "2"]> ∅)))
      (any_map_string_ptr (<["b" := Some "3"]> (<["c" := None]> ∅))) []
      = (None, ([] ++ made)%list) ∧
    apply_calls made (New Background (any_map_string (<["a" := "1"]> (<["b" := "2"]> ∅))))
      = New Background (any_map_string_ptr (<["b" := Some "3"]> (<["c" := None]> ∅))).
Proof.
  exact (elbv2_UpdateTags_converges id Background elbv2_succeeding_conn "arn"
           (any_map_string (<["a" := "1"]> (<["b" := "2"]> ∅)))
           (any_map_string_ptr (<["b" := Some "3"]> (<["c" := None]> ∅))) []
           (conj (λ _ _ _, eq_refl) (λ _ _ _, eq_refl)) eq_refl eq_refl).
Defined.

(** X18: when elbv2 [UpdateTags] has tags to remove and [RemoveTags]
    fails, that is the only call made, no [AddTags] follows, and the result
    wraps the error under "untagging resource (identifier)". *)
Theorem elbv2_UpdateTags_remove_failure IgnoreAWS ctx conn identifier
    oldTagsMap newTagsMap (h : History) (e : err) :
  let oldTags := New ctx oldTagsMap in
  let newTags := New ctx newTagsMap in
  let input := RemoveTagsInput.mk (aws.StringSlice [identifier])
                 (aws.StringSlice (Keys (IgnoreAWS (Removed oldTags newTags)))) in
  Removed oldTags newTags ≠ ∅ →
  RemoveTags_reply conn h ctx input = Some e →
  elbv2.UpdateTags IgnoreAWS ctx conn identifier oldTagsMap newTagsMap h
    = (Some (fmt_Errorf ("untagging resource (" ++ identifier ++ ")") e),
       (h ++ [RemoveTags ctx input])%list).
Proof.
  intros oldTags newTags input Hrem Hreply.
  rewrite elbv2_UpdateTags_run. cbv zeta. fold oldTags newTags input.
  rewrite bool_decide_true by exact Hrem. rewrite Hreply. reflexivity.
Qed.

Lemma elbv2_UpdateTags_remove_failure_witness :
  ∃ input,
    elbv2.UpdateTags id Background
      {| DescribeTags_reply := λ _ _ _, ({| DescribeTagsOutput.TagDescriptions := [] |}, None);
         RemoveTags_reply := λ _ _ _, Some (awserr_New "LoadBalancerNotFound" "not found");
         AddTags_reply := λ _ _ _, None |}
      "arn" (any_map_string (<["a" := "1"]> ∅)) (any_map_string (<["c" := "4"]> ∅)) []
    = (Some (fmt_Errorf "untagging resource (arn)"
               (awserr_New "LoadBalancerNotFound" "not found")),
       [RemoveTags Background input]).
Proof.
  eexists.
  apply (elbv2_UpdateTags_remove_failure id Background _ "arn"
           (any_map_string (<["a" := "1"]> ∅)) (any_map_string (<["c" := "4"]> ∅)) []).
  - apply (bool_decide_unpack _). vm_compute. exact I.
  - reflexivity.
Defined.

(** ** [ListTags] and [GetTag], further *)

(** X19: [ListTags] of shield, codeartifact, ecs and wafv2, and ecs
    [GetTag], make exactly one [ListTagsForResource] call, for the
    identifier given; elbv2 [ListTags] makes exactly one [DescribeTags]
    call for the one-element list of the identifier.  This holds whatever
    the service answers: no helper retries or asks for a further page. *)
Theorem ListTags_make_one_call ctx identifier (h : History) :
  let list := ListTagsForResource ctx (ListTagsForResourceInput.mk (Some identifier)) in
  (∀ conn, (shield.ListTags ctx conn identifier h).2 = (h ++ [list])%list) ∧
  (∀ conn, (codeartifact.ListTags ctx conn identifier h).2 = (h ++ [list])%list) ∧
  (∀ conn, (ecs.ListTags ctx conn identifier h).2 = (h ++ [list])%list) ∧
  (∀ conn, (wafv2_list.ListTags ctx conn identifier h).2 = (h ++ [list])%list) ∧
  (∀ conn, (elbv2.ListTags ctx conn identifier h).2 =
             (h ++ [DescribeTags ctx (DescribeTagsInput.mk [Some identifier])])%list) ∧
  (∀ KeyExists KeyValue empty conn key,
     (ecs_tag.GetTag KeyExists KeyValue empty ctx conn identifier key h).2
       = (h ++ [list])%list).
Proof.
  intros list. repeat split; intros.
  - unfold shield.ListTags, tags_gen.ListTags, mbind, M_bind, ListTagsForResourceWithContext.
    destruct (ListTagsForResource_reply conn h ctx _) as [output [e|]]; reflexivity.
  - unfold codeartifact.ListTags, tags_gen.ListTags, mbind, M_bind,
      ListTagsForResourceWithContext.
    destruct (ListTagsForResource_reply conn h ctx _) as [output [e|]]; reflexivity.
  - unfold ecs.ListTags, mbind, M_bind, ListTagsForResourceWithContext.
    destruct (ListTagsForResource_reply conn h ctx _) as [output err].
    destruct (tfawserr.ErrMessageContains err _ _); [reflexivity|].
    destruct err; reflexivity.
  - unfold wafv2_list.ListTags, mbind, M_bind, wafv2_list.ListTagsForResourceWithContext.
    destruct (wafv2_list.ListTagsForResource_reply conn h ctx _) as [[marker [info|]] [e|]];
      reflexivity.
  - unfold elbv2.ListTags, mbind, M_bind, DescribeTagsWithContext.
    destruct (DescribeTags_reply conn h ctx _) as [[[|d ds]] [e|]]; reflexivity.
  - unfold ecs_tag.GetTag, ecs.ListTags, mbind, M_bind, ListTagsForResourceWithContext.
    destruct (ListTagsForResource_reply conn h ctx _) as [output err].
    destruct (tfawserr.ErrMessageContains err _ _); [reflexivity|].
    destruct err; [reflexivity|]. simpl.
    destruct (KeyExists _ _); reflexivity.
Qed.


(** X21: wafv2 [ListTags] returns the empty tag set and the error when
    the call fails, and the tag set of [TagInfoForResource.TagList] when it
    succeeds; it dereferences [TagInfoForResource] without a test, so on a
    successful response it panics exactly when that pointer is nil. *)
Theorem wafv2_ListTags_result ctx conn identifier (h : History) :
  let input := ListTagsForResourceInput.mk (aws.String identifier) in
  let reply := wafv2_list.ListTagsForResource_reply conn h ctx input in
  let info := WAFV2ListTagsForResourceOutput.TagInfoForResource reply.1 in
  let result := (wafv2_list.ListTags ctx conn identifier h).1 in
  (∀ e, reply.2 = Some e → result = Returns (Some (∅ : gmap string string), Some e)) ∧
  (reply.2 = None → ∀ i, info = Some i →
     result = Returns (Some (wafv2.KeyValueTags ctx (TagInfoForResource.TagList i)), None)) ∧
  (reply.2 = None → (result = Panics ↔ info = None)).
Proof.
  intros input reply info result. subst result info reply.
  unfold wafv2_list.ListTags, mbind, M_bind, wafv2_list.ListTagsForResourceWithContext.
  fold input.
  destruct (wafv2_list.ListTagsForResource_reply conn h ctx input) as [[marker info] err].
  simpl. split; [|split].
  - intros e ->. reflexivity.
  - intros -> i ->. reflexivity.
  - intros ->. destruct info; split; intros Hp; first [discriminate Hp | reflexivity].
Qed.

Example wafv2_ListTags_without_tag_info :
  (wafv2_list.ListTags Background
     {| wafv2_list.ListTagsForResource_reply := λ _ _ _,
          ({| WAFV2ListTagsForResourceOutput.NextMarker := None;
              WAFV2ListTagsForResourceOutput.TagInfoForResource := None |}, None) |}
     "arn:aws:wafv2:us-east-1:123456789012:regional/webacl/w/1" []).1
  = Panics.
Proof. reflexivity. Qed.

(** ** [listServices], further *)

(** X22: when the paginator serves a finite run of pages without error,
    [listServices] returns, given more iterations than pages, the service
    ARNs of all pages in page order and no error, after one [NextPage] call
    per page. *)
Theorem listServices_collects_all_pages {P : Type} (HasMorePages : P → bool)
    NextPage_reply ctx (pages : P) (outs : list ecs.ListServicesOutput)
    (fuel : nat) (h : History) :
  serves HasMorePages NextPage_reply ctx pages outs →
  (length outs < fuel)%nat →
  ecs.listServices P HasMorePages NextPage_reply fuel ctx pages h =
    (Some (concat (ecs.ServiceArns <$> outs), None),
     (h ++ replicate (length outs) (ListServices_NextPage ctx))%list).
Proof.
  intros Hserves. unfold ecs.listServices.
  change (concat (ecs.ServiceArns <$> outs))
    with ([] ++ concat (ecs.ServiceArns <$> outs))%list.
  generalize (@nil string) as output. revert fuel h.
  induction Hserves as [pages Hno | pages out pages' outs Hmore Hreply _ IH];
    intros fuel h output Hfuel.
  - destruct fuel as [|fuel]; [simpl in Hfuel; lia|]. simpl. rewrite Hno.
    by rewrite !app_nil_r.
  - destruct fuel as [|fuel]; [simpl in Hfuel; lia|]. simpl. rewrite Hmore.
    unfold mbind, M_bind, ecs.NextPage. rewrite Hreply.
    rewrite IH by (simpl in Hfuel; lia).
    by rewrite <- !app_assoc.
Qed.

Lemma listServices_collects_all_pages_witness :
  ecs.listServices (list (list string)) list_paginator_HasMorePages list_paginator_NextPage
    5 Background [["s1"; "s2"]; []; ["s3"]] []
  = (Some (["s1"; "s2"; "s3"], None),
     [ListServices_NextPage Background; ListServices_NextPage Background;
      ListServices_NextPage Background]).
Proof.
  apply (listServices_collects_all_pages list_paginator_HasMorePages
           list_paginator_NextPage Background [["s1"; "s2"]; []; ["s3"]]
           [ {| ecs.ServiceArns := ["s1"; "s2"] |}; {| ecs.ServiceArns := [] |};
             {| ecs.ServiceArns := ["s3"] |} ] 5 []).
  - repeat (eapply serves_page; [reflexivity | reflexivity |]).
    apply serves_done. reflexivity.
  - simpl. lia.
Defined.

(** X23: when [listServices] returns an error it returns no ARNs, also
    when earlier pages had been fetched, and it made at least one
    [NextPage] call. *)
Theorem listServices_error_discards_pages {P : Type} (HasMorePages : P → bool)
    NextPage_reply (fuel : nat) ctx (pages : P) (h h' : History) arns e :
  ecs.listServices P HasMorePages NextPage_reply fuel ctx pages h
    = (Some (arns, Some e), h') →
  arns = [] ∧ ∃ n, h' = (h ++ replicate (S n) (ListServices_NextPage ctx))%list.
Proof.
  unfold ecs.listServices. generalize (@nil string) at 1 as output.
  revert pages h. induction fuel as [|fuel IH]; intros pages h output; simpl.
  - discriminate.
  - destruct (HasMorePages pages); [|discriminate].
    unfold mbind, M_bind, ecs.NextPage.
    destruct (NextPage_reply ctx pages) as [[page [e'|]] pages'].
    + intros [= <- <- <-]. split; [reflexivity|]. exists 0%nat. reflexivity.
    + intros Hloop. destruct (IH _ _ _ Hloop) as [-> [n ->]].
      split; [reflexivity|]. exists (S n). by rewrite <- app_assoc.
Qed.

Lemma listServices_error_discards_pages_witness :
  ∃ arns h',
    ecs.listServices nat (λ _, true) failing_paginator_NextPage 5 Background 0%nat []
      = (Some (arns, Some (awserr_New "ClusterNotFoundException" "Cluster not found.")), h') ∧
    arns = [] ∧
    ∃ n, h' = ([] ++ replicate (S n) (ListServices_NextPage Background))%list.
Proof.
  eexists _, _. split; [reflexivity|].
  eapply (listServices_error_discards_pages (λ _ : nat, true) failing_paginator_NextPage
            5 Background 0%nat []).
  reflexivity.
Defined.
